(** * Health dashboard: AQI classifier, fallback data, chart shaping

    A shallow embedding of the [Health] page component: the AQI classifier
    [getAQICategory], the fallback data built on every render, the two chart
    shapers [formatAqiForecastData] and [formatPollenData], and the reads the
    air-quality tab performs on the query result. *)

From Stdlib Require Import ZArith Lia Bool Ascii String.
From Stdlib Require Import Floats.SpecFloat.
From stdpp Require Import base option list strings.

Local Open Scope string_scope.
Local Open Scope Z_scope.

Set Warnings "-register-all".

(** ** JavaScript numbers

    A JS [number] is an IEEE 754 binary64 value.  [spec_float] is the
    Standard Library's inductive description of such values; the comparison
    operators of the language are [SFleb] and [SFltb] (every comparison with
    NaN is false, both zeros compare equal). *)

Module Num.

Definition number : Type := spec_float.

Definition prec : Z := 53.
Definition emax : Z := 1024.

(** The number denoted by an integer literal. *)
Definition lit (z : Z) : number := binary_normalize prec emax z 0 false.

Definition NaN : number := S754_nan.

(** [a <= b] and [a > b] of the language. *)
Definition le (a b : number) : bool := SFleb a b.
Definition gt (a b : number) : bool := SFltb b a.

Definition add (a b : number) : number := SFadd prec emax a b.
Definition sub (a b : number) : number := SFsub prec emax a b.
Definition mul (a b : number) : number := SFmul prec emax a b.
Definition div (a b : number) : number := SFdiv prec emax a b.

(** [Math.min(a, b)]: NaN if either is NaN, and [-0] is below [+0]. *)
Definition min (a b : number) : number :=
  match a, b with
  | S754_nan, _ | _, S754_nan => S754_nan
  | S754_zero sa, S754_zero sb => S754_zero (sa || sb)
  | _, _ => if SFltb b a then b else a
  end.

(** Truthiness of a number: [0], [-0] and [NaN] are falsy. *)
Definition truthy (a : number) : bool :=
  match a with
  | S754_zero _ | S754_nan => false
  | _ => true
  end.

End Num.

Abbreviation number := Num.number.

(** ** The AQI classifier *)

Record AqiCategory : Type := mkAqiCategory {
  label : string;
  color : string;
  progressColor : string
}.

Definition Good : AqiCategory :=
  mkAqiCategory "Good" "bg-green-100 text-green-800" "bg-green-500".
Definition Moderate : AqiCategory :=
  mkAqiCategory "Moderate" "bg-yellow-100 text-yellow-800" "bg-yellow-500".
Definition UnhealthySensitive : AqiCategory :=
  mkAqiCategory "Unhealthy for Sensitive Groups"
                "bg-orange-100 text-orange-800" "bg-orange-500".
Definition Unhealthy : AqiCategory :=
  mkAqiCategory "Unhealthy" "bg-red-100 text-red-800" "bg-red-500".
Definition VeryUnhealthy : AqiCategory :=
  mkAqiCategory "Very Unhealthy" "bg-purple-100 text-purple-800" "bg-purple-500".
Definition Hazardous : AqiCategory :=
  mkAqiCategory "Hazardous" "bg-rose-100 text-rose-800" "bg-rose-800".

Definition tiers : list AqiCategory :=
  [Good; Moderate; UnhealthySensitive; Unhealthy; VeryUnhealthy; Hazardous].

Definition getAQICategory (aqi : number) : AqiCategory :=
  if Num.le aqi (Num.lit 50) then Good
  else if Num.le aqi (Num.lit 100) then Moderate
  else if Num.le aqi (Num.lit 150) then UnhealthySensitive
  else if Num.le aqi (Num.lit 200) then Unhealthy
  else if Num.le aqi (Num.lit 300) then VeryUnhealthy
  else Hazardous.

(** The band a number falls in, by the comparisons of the language. *)
Definition inBand (lo hi : Z) (x : number) : Prop :=
  Num.gt x (Num.lit lo) = true ∧ Num.le x (Num.lit hi) = true.

(** ** Exceptions

    What the language raises when a property of [undefined] is read, when an
    invalid date is formatted, and when an unbound identifier is evaluated. *)

Inductive JsError : Type :=
  | TypeError (reading : string)
  | RangeError (what : string)
  | ReferenceError (ident : string).

Definition Exc (A : Type) : Type := JsError + A.

Definition throw {A} (e : JsError) : Exc A := inl e.

#[global] Instance Exc_ret : MRet Exc := λ A x, inr x.
#[global] Instance Exc_bind : MBind Exc := λ A B f m,
  match m with
  | inl e => inl e
  | inr x => f x
  end.

Definition succeeds {A} (m : Exc A) : bool :=
  match m with inr _ => true | inl _ => false end.

(** ** Dates

    The time arithmetic of the language standard, over integer milliseconds
    since the epoch.  A date object holds a time value or NaN ([None]).  The
    host supplies the local time zone, the textual formats and the parser. *)

Record Host : Type := mkHost {
  (** offset of local time from UTC, in ms; the flag tells whether the
      argument is a UTC instant ([true]) or a local time ([false]) *)
  LocalTZA : Z → bool → Z;
  (** the text [toISOString] produces for a valid time value *)
  isoFormat : Z → string;
  (** the time value [new Date(text)] holds; [None] is an invalid date *)
  Date_parse : string → option Z;
  Math_round : number → number;
  (** whether the global object defines a property of that name, beyond the
      built-ins of the language *)
  definesGlobal : string → bool
}.

Module DateModel.

Definition msPerSecond : Z := 1000.
Definition msPerMinute : Z := 60000.
Definition msPerHour : Z := 3600000.
Definition msPerDay : Z := 86400000.
Definition maxTime : Z := 8640000000000000.

Definition Day (t : Z) : Z := t `div` msPerDay.
Definition HourFromTime (t : Z) : Z := (t `div` msPerHour) `mod` 24.
Definition MinFromTime (t : Z) : Z := (t `div` msPerMinute) `mod` 60.
Definition SecFromTime (t : Z) : Z := (t `div` msPerSecond) `mod` 60.
Definition msFromTime (t : Z) : Z := t `mod` msPerSecond.
Definition WeekDay (t : Z) : Z := (Day t + 4) `mod` 7.

Definition MakeTime (hour min sec ms : Z) : Z :=
  hour * msPerHour + min * msPerMinute + sec * msPerSecond + ms.
Definition MakeDate (day time : Z) : Z := day * msPerDay + time.

Definition TimeClip (t : Z) : option Z :=
  if bool_decide (Z.abs t ≤ maxTime) then Some t else None.

Definition DateValue : Type := option Z.

Section WithHost.
Variable host : Host.

Definition LocalTime (t : Z) : Z := t + LocalTZA host t true.
Definition UTC (t : Z) : Z := t - LocalTZA host t false.

(** [date.getHours()]: an integral number, or NaN ([None]). *)
Definition getHours (d : DateValue) : option Z :=
  t ← d; Some (HourFromTime (LocalTime t)).

(** [date.setHours(hour)]: the new time value of the date object. *)
Definition setHours (d : DateValue) (hour : option Z) : DateValue :=
  t ← d; h ← hour;
  let tl := LocalTime t in
  TimeClip (UTC (MakeDate (Day tl)
              (MakeTime h (MinFromTime tl) (SecFromTime tl) (msFromTime tl)))).

(** [date.toISOString()] *)
Definition toISOString (d : DateValue) : Exc string :=
  match d with
  | Some t => mret (isoFormat host t)
  | None => throw (RangeError "Invalid time value")
  end.

(** [new Date(text)] *)
Definition newDateOf (text : string) : DateValue :=
  t ← Date_parse host text; TimeClip t.

Definition weekdayNames : list string :=
  ["Sun"; "Mon"; "Tue"; "Wed"; "Thu"; "Fri"; "Sat"].

(** [date.toLocaleDateString('en-US', { weekday: 'short' })] *)
Definition weekdayShort (d : DateValue) : string :=
  match d with
  | Some t => default "Invalid Date"
                (weekdayNames !! Z.to_nat (WeekDay (LocalTime t)))
  | None => "Invalid Date"
  end.

End WithHost.

End DateModel.

(** The number a possibly-NaN integer stands for. *)
Definition numOfInt (h : option Z) : number := from_option Num.lit Num.NaN h.

(** ** The ambient world: the system clock and the random source

    [new Date()] reads the clock and [Math.random()] draws from the random
    source; both are consumed in program order. *)

Record World : Type := mkWorld {
  clock : nat → Z;
  clockReads : nat;
  random : nat → number;
  randomDraws : nat
}.

Definition M (A : Type) : Type := World → Exc (A * World).

#[global] Instance M_ret : MRet M := λ A x w, inr (x, w).
#[global] Instance M_bind : MBind M := λ A B f m w,
  match m w with
  | inl e => inl e
  | inr (x, w') => f x w'
  end.

Definition liftExc {A} (m : Exc A) : M A := λ w,
  match m with
  | inl e => inl e
  | inr x => inr (x, w)
  end.

(** [new Date()] *)
Definition newDate : M DateModel.DateValue := λ w,
  inr (Some (clock w (clockReads w)),
       mkWorld (clock w) (S (clockReads w)) (random w) (randomDraws w)).

(** [Math.random()] *)
Definition Math_random : M number := λ w,
  inr (random w (randomDraws w),
       mkWorld (clock w) (clockReads w) (random w) (S (randomDraws w))).

(** [Array.from({ length: n }, (_, i) => f i)]: the callback runs once per
    index, in ascending order. *)
Fixpoint arrayFromAt {A} (f : nat → M A) (i n : nat) : M (list A) :=
  match n with
  | O => mret []
  | S n' => x ← f i; xs ← arrayFromAt f (S i) n'; mret (x :: xs)
  end.

Definition Array_from {A} (n : nat) (f : nat → M A) : M (list A) :=
  arrayFromAt f 0 n.

(** ** Object literals and declared shapes

    The two static fallbacks are plain object literals; their keys are
    compared with the keys an interface declares. *)

Inductive JsVal : Type :=
  | VUndefined
  | VBool (b : bool)
  | VNum (n : number)
  | VStr (s : string)
  | VArr (items : list JsVal)
  | VObj (fields : list (string * JsVal)).

Fixpoint assoc {A} (k : string) (l : list (string * A)) : option A :=
  match l with
  | [] => None
  | (k', v) :: l' => if String.eqb k k' then Some v else assoc k l'
  end.

(** Property read [v.k] on a value that is not [undefined]. *)
Definition get (k : string) (v : JsVal) : JsVal :=
  match v with
  | VObj fields => default VUndefined (assoc k fields)
  | _ => VUndefined
  end.

(** Optional-chaining read along a path: [v?.k1?.k2...]. *)
Definition getPath (path : list string) (v : JsVal) : JsVal :=
  foldl (λ acc k, get k acc) v path.

Definition keys (v : JsVal) : list string :=
  match v with
  | VObj fields => fields.*1
  | _ => []
  end.

Definition truthy (v : JsVal) : bool :=
  match v with
  | VUndefined => false
  | VBool b => b
  | VNum n => Num.truthy n
  | VStr s => negb (String.eqb s "")
  | VArr _ | VObj _ => true
  end.

(** An interface declaration: field name, whether it is optional ([?]), and
    the declared type. *)
Inductive TsType : Type :=
  | TNumber
  | TString
  | TBoolean
  | TAny
  | TArray (elem : TsType)
  | TObject (decls : list (string * (bool * TsType))).

Definition declared (t : TsType) : list string :=
  match t with
  | TObject decls => decls.*1
  | _ => []
  end.

Definition mem (k : string) (l : list string) : bool :=
  existsb (String.eqb k) l.

(** [sameShape v t]: the value has exactly the declared keys, with the
    declared nesting, at every level. *)
Fixpoint sameShape (v : JsVal) (t : TsType) {struct v} : bool :=
  match t, v with
  | TAny, _ => true
  | TNumber, VNum _ => true
  | TString, VStr _ => true
  | TBoolean, VBool _ => true
  | TArray elem, VArr items => forallb (λ x, sameShape x elem) items
  | TObject decls, VObj fields =>
      forallb (λ kv, match assoc kv.1 decls with
                     | Some (_, t') => sameShape kv.2 t'
                     | None => false
                     end) fields
      && forallb (λ d, mem d (fields.*1)) (decls.*1)
  | _, _ => false
  end.

Definition PollenData_t : TsType :=
  TObject [("daily", (true, TObject [
    ("time", (false, TArray TString));
    ("grass_pollen", (false, TArray TNumber));
    ("tree_pollen", (false, TArray TNumber));
    ("weed_pollen", (false, TArray TNumber))]))].

Definition AqiCategory_val (c : AqiCategory) : JsVal :=
  VObj [("label", VStr (label c)); ("color", VStr (color c));
        ("progressColor", VStr (progressColor c))].

(** ** The data shapes of the component *)

Record AirQualityCurrent : Type := mkCurrent {
  cur_pm2_5 : number;
  cur_pm10 : number;
  cur_no2 : number;
  cur_o3 : number;
  cur_so2 : number;
  cur_co : number;
  cur_aqi : number;
  (** declared [any] *)
  cur_aqiCategory : JsVal
}.

Record AirQualityHourly : Type := mkAirQualityHourly {
  aq_time : list string;
  aq_pm2_5 : list number;
  aq_pm10 : list number;
  aq_aqi : list number
}.

Record AirQualityData : Type := mkAirQualityData {
  current : AirQualityCurrent;
  aq_hourly : option AirQualityHourly
}.

Record AqiForecastHourly : Type := mkAqiForecastHourly {
  fc_time : list string;
  european_aqi : list number;
  fc_pm2_5 : option (list number);
  fc_pm10 : option (list number)
}.

Record AqiForecastData : Type := mkAqiForecastData {
  hourly : option AqiForecastHourly
}.

Record PollenDaily : Type := mkPollenDaily {
  daily_time : list string;
  grass_pollen : list number;
  tree_pollen : list number;
  weed_pollen : list number
}.

Record PollenData : Type := mkPollenData {
  daily : option PollenDaily
}.

(** [name: string | number] *)
Inductive PointName : Type :=
  | NameNumber (n : number)
  | NameString (s : string).

(** A chart point; [None] is an absent or [undefined] field. *)
Record ChartDataPoint : Type := mkPoint {
  name : PointName;
  aqi : option number;
  pm2_5 : option number;
  pm10 : option number;
  grass : option number;
  tree : option number;
  weed : option number
}.

(** ** The query results the component reads *)

Record QueryResult (A : Type) : Type := mkQuery {
  data : option A;
  isLoading : bool;
  error : option string
}.
Arguments mkQuery {A}.
Arguments data {A}.
Arguments isLoading {A}.
Arguments error {A}.

(** The console, as the list of [console.error] calls made so far. *)
Definition Console : Type := list (string * string).

(** The [onError] handler of the air-quality query. *)
Definition onError_airQuality (err : string) (console : Console) : Console :=
  (console ++ [("Air quality data fetch error:", err)])%list.

(** [a || b] on a possibly-absent object: objects are truthy, [undefined]
    is not. *)
Definition orElse {A} (a : option A) (b : A) : A := default b a.

(** [a || b] on a payload of type [any]. *)
Definition orElseVal (a : option JsVal) (b : JsVal) : JsVal :=
  match a with
  | Some v => if truthy v then v else b
  | None => b
  end.

(** The ambient user profile, as far as the page reads it. *)
Record HealthProfile : Type := mkHealthProfile {
  hasRespiratoryConditions : bool;
  hasAllergies : bool
}.

Record UserProfile : Type := mkUserProfile {
  healthProfile : option HealthProfile
}.

Record User : Type := mkUser {
  userProfile : option UserProfile
}.

(** [s.replace(pat, rep)] with a string pattern: the first occurrence only. *)
Fixpoint replaceFirst (pat rep s : string) : string :=
  if String.prefix pat s
  then rep +:+ String.substring (String.length pat)
                 (String.length s - String.length pat) s
  else match s with
       | EmptyString => EmptyString
       | String c s' => String c (replaceFirst pat rep s')
       end.

(** ** Fallback data, rebuilt on every render *)

Section Component.
Variable host : Host.

(** The callback of the two [time] arrays. *)
Definition fallbackTimestamp (i : nat) : M string :=
  date ← newDate;
  let date' := DateModel.setHours host date
                 ((λ h, h + Z.of_nat i) <$> DateModel.getHours host date) in
  liftExc (DateModel.toISOString host date').

(** [() => Math.round(base + Math.random() * spread)] *)
Definition jitter (base spread : Z) (_ : nat) : M number :=
  r ← Math_random;
  mret (Math_round host (Num.add (Num.lit base) (Num.mul r (Num.lit spread)))).

Definition fallbackAirQualityData : M AirQualityData :=
  time ← Array_from 24 fallbackTimestamp;
  pm2_5 ← Array_from 24 (jitter 20 10);
  pm10 ← Array_from 24 (jitter 35 15);
  aqi ← Array_from 24 (jitter 75 20);
  mret {|
    current := {|
      cur_pm2_5 := Num.lit 25;
      cur_pm10 := Num.lit 40;
      cur_no2 := Num.lit 15;
      cur_o3 := Num.lit 30;
      cur_so2 := Num.lit 8;
      cur_co := Num.lit 4;
      cur_aqi := Num.lit 85;
      cur_aqiCategory := AqiCategory_val (getAQICategory (Num.lit 85))
    |};
    aq_hourly := Some {|
      aq_time := time;
      aq_pm2_5 := pm2_5;
      aq_pm10 := pm10;
      aq_aqi := aqi
    |}
  |}.

Definition effectiveAirQualityData
    (airQualityData : option AirQualityData)
    (fallback : AirQualityData) : AirQualityData :=
  orElse airQualityData fallback.

Definition fallbackHealthRecommendationsData : JsVal :=
  VObj [
    ("temperature", VObj [
      ("current", VNum (Num.lit 28));
      ("isHot", VBool true);
      ("isCold", VBool false);
      ("recommendations", VArr [
        VStr "Stay hydrated by drinking plenty of water throughout the day.";
        VStr "Wear lightweight, loose-fitting clothing when outdoors.";
        VStr "Use fans or air conditioning to stay cool indoors."])]);
    ("uv", VObj [
      ("index", VNum (Num.lit 7));
      ("category", VStr "High");
      ("recommendations", VArr [
        VStr "Apply SPF 30+ sunscreen when outdoors.";
        VStr "Wear sunglasses and a wide-brimmed hat for additional protection.";
        VStr "Seek shade during peak UV hours (10am-4pm)."])]);
    ("airQuality", VObj [
      ("aqi", VNum (Num.lit 85));
      ("category", AqiCategory_val (getAQICategory (Num.lit 85)));
      ("recommendations", VArr [
        VStr "Consider limiting prolonged outdoor activities if you have respiratory conditions.";
        VStr "Keep windows closed during periods of high pollution.";
        VStr "Use air purifiers indoors if available."])])].

Definition fallbackPollenData : JsVal :=
  VObj [
    ("grass", VObj [("level", VNum (Num.lit 2)); ("category", VStr "Moderate")]);
    ("tree", VObj [("level", VNum (Num.lit 3)); ("category", VStr "High")]);
    ("weed", VObj [("level", VNum (Num.lit 1)); ("category", VStr "Low")]);
    ("mold", VObj [("level", VNum (Num.lit 2)); ("category", VStr "Moderate")])].

Definition fallbackAqiForecastData : M AqiForecastData :=
  time ← Array_from 24 fallbackTimestamp;
  eaqi ← Array_from 24 (jitter 75 20);
  mret {|
    hourly := Some {|
      fc_time := time;
      european_aqi := eaqi;
      fc_pm2_5 := None;
      fc_pm10 := None
    |}
  |}.

(** The property paths the recommendations tab reads from the
    recommendations payload. *)
Definition recommendationReads : list (list string) :=
  [ ["uv"; "index"]; ["uv"; "category"];
    ["temperature"; "current"]; ["temperature"; "isHot"];
    ["temperature"; "isCold"]; ["temperature"; "recommendations"] ].

(** ** The chart shapers *)

Definition formatAqiForecastData (data : option AqiForecastData)
    : list ChartDataPoint :=
  match data with
  | None => []
  | Some d =>
    match hourly d with
    | None => []
    | Some hourly =>
      imap (λ i time, {|
        name := NameNumber
                  (numOfInt (DateModel.getHours host
                               (DateModel.newDateOf host time)));
        aqi := european_aqi hourly !! i;
        pm2_5 := match fc_pm2_5 hourly with
                 | Some a => a !! i
                 | None => None
                 end;
        pm10 := match fc_pm10 hourly with
                | Some a => a !! i
                | None => None
                end;
        grass := None; tree := None; weed := None
      |}) (take 24 (fc_time hourly))
    end
  end.

Definition formatPollenData (data : option PollenData)
    : list ChartDataPoint :=
  match data with
  | None => []
  | Some d =>
    match daily d with
    | None => []
    | Some daily =>
      imap (λ i date, {|
        name := NameString
                  (DateModel.weekdayShort host (DateModel.newDateOf host date));
        aqi := None; pm2_5 := None; pm10 := None;
        grass := grass_pollen daily !! i;
        tree := tree_pollen daily !! i;
        weed := weed_pollen daily !! i
      |}) (daily_time daily)
    end
  end.

(** ** The component: hook results, local bindings, the air-quality tab *)

Record HealthState : Type := mkHealthState {
  user : option User;
  airQuality : QueryResult AirQualityData;
  aqiForecast : QueryResult AqiForecastData;
  healthRecommendations : QueryResult JsVal;
  pollen : QueryResult PollenData
}.

(** The bindings made in the component body before its [return]. *)
Record HealthLocals : Type := mkHealthLocals {
  fallbackAirQualityData_ : AirQualityData;
  effectiveAirQualityData_ : AirQualityData;
  effectiveHealthRecommendationsData_ : JsVal;
  effectivePollenData_ : PollenData + JsVal;
  fallbackAqiForecastData_ : AqiForecastData;
  effectiveAqiForecastData_ : AqiForecastData
}.

Definition HealthBindings (st : HealthState) : M HealthLocals :=
  fbAir ← fallbackAirQualityData;
  let effAir := effectiveAirQualityData (data (airQuality st)) fbAir in
  fbForecast ← fallbackAqiForecastData;
  mret {|
    fallbackAirQualityData_ := fbAir;
    effectiveAirQualityData_ := effAir;
    effectiveHealthRecommendationsData_ :=
      orElseVal (data (healthRecommendations st))
                fallbackHealthRecommendationsData;
    effectivePollenData_ :=
      match data (pollen st) with
      | Some d => inl d
      | None => inr fallbackPollenData
      end;
    fallbackAqiForecastData_ := fbForecast;
    effectiveAqiForecastData_ := orElse (data (aqiForecast st)) fbForecast
  |}.

(** [airQualityData.current]: reading a property of [undefined] raises. *)
Definition readCurrent (airQualityData : option AirQualityData)
    : Exc AirQualityCurrent :=
  match airQualityData with
  | Some d => mret (current d)
  | None => throw (TypeError "current")
  end.

Inductive Slot (V : Type) : Type :=
  | Skeleton
  | Shown (v : V).
Arguments Skeleton {V}.
Arguments Shown {V}.

(** The "Current Air Quality" card: the class names, the stroke offset of
    the gauge, the readings (shown by the host with one decimal) and the
    values of the four progress bars. *)
Record CurrentAirQualityView : Type := mkCurrentView {
  gaugeClass : string;
  strokeDashoffset : number;
  aqiText : number;
  badgeClass : string;
  badgeLabel : string;
  pm2_5_reading : number;
  pm2_5_bar : number;
  pm10_reading : number;
  pm10_bar : number;
  no2_reading : number;
  no2_bar : number;
  o3_reading : number;
  o3_bar : number
}.

(** [Math.min(x / scale * 100, 100)] *)
Definition barValue (x : number) (scale : Z) : number :=
  Num.min (Num.mul (Num.div x (Num.lit scale)) (Num.lit 100)) (Num.lit 100).

(** The literal [251.2]. *)
Definition circumference : number := Num.div (Num.lit 2512) (Num.lit 10).

Record HealthImpactView : Type := mkImpactView {
  panelClass : string;
  generalText : string;
  respiratoryAlert : bool;
  allergyAlert : bool
}.

Record AirQualityTabView : Type := mkTabView {
  currentCard : Slot CurrentAirQualityView;
  impactCard : Slot HealthImpactView;
  forecastCard : Slot (list ChartDataPoint)
}.

Definition currentAirQualityCard (q : QueryResult AirQualityData)
    : Exc (Slot CurrentAirQualityView) :=
  if isLoading q then mret Skeleton
  else
    c1 ← readCurrent (data q);
    c2 ← readCurrent (data q);
    c3 ← readCurrent (data q);
    c4 ← readCurrent (data q);
    c5 ← readCurrent (data q);
    c6 ← readCurrent (data q);
    c7 ← readCurrent (data q);
    c8 ← readCurrent (data q);
    c9 ← readCurrent (data q);
    c10 ← readCurrent (data q);
    c11 ← readCurrent (data q);
    c12 ← readCurrent (data q);
    c13 ← readCurrent (data q);
    mret (Shown {|
      gaugeClass := progressColor (getAQICategory (cur_aqi c1));
      strokeDashoffset :=
        Num.mul circumference
          (Num.sub (Num.lit 1)
             (Num.min (Num.div (cur_aqi c2) (Num.lit 300)) (Num.lit 1)));
      aqiText := cur_aqi c3;
      badgeClass := color (getAQICategory (cur_aqi c4));
      badgeLabel := label (getAQICategory (cur_aqi c5));
      pm2_5_reading := cur_pm2_5 c6;
      pm2_5_bar := barValue (cur_pm2_5 c7) 50;
      pm10_reading := cur_pm10 c8;
      pm10_bar := barValue (cur_pm10 c9) 100;
      no2_reading := cur_no2 c10;
      no2_bar := barValue (cur_no2 c11) 200;
      o3_reading := cur_o3 c12;
      o3_bar := barValue (cur_o3 c13) 180
    |}).

Definition generalPopulationText (aqi : number) : string :=
  if Num.le aqi (Num.lit 50) then
    "Air quality is considered satisfactory, and air pollution poses little or no risk."
  else if Num.le aqi (Num.lit 100) then
    "Air quality is acceptable; however, there may be a moderate health concern for a very small number of people."
  else if Num.le aqi (Num.lit 150) then
    "Members of sensitive groups may experience health effects. The general public is not likely to be affected."
  else
    "Everyone may begin to experience health effects; members of sensitive groups may experience more serious health effects.".

(** [user?.userProfile?.healthProfile] *)
Definition profileOf (u : option User) : option HealthProfile :=
  u' ← u; p ← userProfile u'; healthProfile p.

Definition healthImpactCard (u : option User) (q : QueryResult AirQualityData)
    : Exc (Slot HealthImpactView) :=
  if isLoading q then mret Skeleton
  else
    c1 ← readCurrent (data q);
    c2 ← readCurrent (data q);
    let resp := from_option hasRespiratoryConditions false (profileOf u) in
    allergy ←
      (if from_option hasAllergies false (profileOf u)
       then c3 ← readCurrent (data q); mret (Num.gt (cur_aqi c3) (Num.lit 50))
       else mret false);
    mret (Shown {|
      panelClass := "p-4 rounded-lg " +:+
        replaceFirst "text-" "text-opacity-90 text-"
                     (color (getAQICategory (cur_aqi c1)));
      generalText := generalPopulationText (cur_aqi c2);
      respiratoryAlert := resp;
      allergyAlert := allergy
    |}).

Definition forecastChartCard (q : QueryResult AqiForecastData)
    : Slot (list ChartDataPoint) :=
  if isLoading q then Skeleton
  else Shown (formatAqiForecastData (data q)).

(** The children of the first tab panel, in evaluation order. *)
Definition airQualityTab (st : HealthState) : Exc AirQualityTabView :=
  card1 ← currentAirQualityCard (airQuality st);
  card2 ← healthImpactCard (user st) (airQuality st);
  mret {|
    currentCard := card1;
    impactCard := card2;
    forecastCard := forecastChartCard (aqiForecast st)
  |}.

(** The names bound by the imports, by the module and by the component
    body. *)
Definition boundIdentifiers : list string :=
  [ "useState"; "useQuery"; "Header"; "Footer"; "Card"; "CardContent";
    "CardHeader"; "CardTitle"; "CardDescription"; "Tabs"; "TabsContent";
    "TabsList"; "TabsTrigger"; "Skeleton"; "Alert"; "AlertDescription";
    "AlertTitle"; "Progress"; "Badge"; "ResponsiveLineChart";
    "ResponsiveBarChart"; "useUser"; "getAQICategory"; "Health";
    "activeTab"; "setActiveTab"; "user";
    "airQualityData"; "airQualityLoading"; "airQualityError";
    "aqiForecastData"; "aqiForecastLoading"; "aqiForecastError";
    "healthRecommendationsData"; "healthRecommendationsLoading";
    "healthRecommendationsError";
    "pollenData"; "pollenLoading"; "pollenError";
    "fallbackAirQualityData"; "effectiveAirQualityData";
    "fallbackHealthRecommendationsData"; "fallbackPollenData";
    "fallbackAqiForecastData"; "effectiveHealthRecommendationsData";
    "effectivePollenData"; "effectiveAqiForecastData";
    "formatAqiForecastData"; "formatPollenData" ].

(** Evaluating an identifier: one that is bound nowhere and is not a
    property of the global object raises. *)
Definition resolve (ident : string) : Exc unit :=
  if mem ident boundIdentifiers || definesGlobal host ident
  then mret tt
  else throw (ReferenceError ident).

(** One render of the component, as far as it is followed here: the local
    bindings are made, the children of the first tab panel are evaluated,
    and the second panel begins by evaluating [aqiHistoricalLoading].  An
    exception raised on the way is the outcome of the render; what the
    later panels evaluate after that identifier is left out. *)
Definition Health (st : HealthState) : M AirQualityTabView :=
  _ ← HealthBindings st;
  tab ← liftExc (airQualityTab st);
  _ ← liftExc (resolve "aqiHistoricalLoading");
  mret tab.

End Component.

(** ** Hosts, clocks and the instants of the fallback timestamps *)

(** The instant [date.setHours(date.getHours() + i)] reaches from [t]: [i]
    hours are added on the local scale and the result is read back as UTC. *)
Definition shifted (host : Host) (t i : Z) : Z :=
  DateModel.UTC host (DateModel.LocalTime host t + i * DateModel.msPerHour).

(** A zone whose offset from UTC never changes. *)
Definition FixedOffset (host : Host) (off : Z) : Prop :=
  ∀ t b, LocalTZA host t b = off.

(** A zone whose offset stays within a day of UTC. *)
Definition BoundedZone (host : Host) : Prop :=
  ∀ t b, Z.abs (LocalTZA host t b) ≤ DateModel.msPerDay.

(** The next [reads] readings of the clock stay three days clear of the
    ends of the date range. *)
Definition ClockInRange (w : World) (reads : nat) : Prop :=
  ∀ j, (j < reads)%nat →
    Z.abs (clock w (clockReads w + j))
    ≤ DateModel.maxTime - 3 * DateModel.msPerDay.

(** Reading number [i] from now, advanced by [i] hours. *)
Definition fallbackInstant (w : World) (i : nat) : Z :=
  clock w (clockReads w + i) + Z.of_nat i * DateModel.msPerHour.

Definition afterClockReads (n : nat) (w : World) : World :=
  mkWorld (clock w) (clockReads w + n) (random w) (randomDraws w).

Definition afterRandomDraws (n : nat) (w : World) : World :=
  mkWorld (clock w) (clockReads w) (random w) (randomDraws w + n).

(** The timestamps a [time] array holds when its callbacks start reading the
    clock at read number [k0]. *)
Definition stampsFrom (host : Host) (w : World) (k0 n : nat) : list string :=
  (λ j, isoFormat host (shifted host (clock w (k0 + j)) (Z.of_nat j))) <$> seq 0 n.

(** The values a jittered array holds when its callbacks start drawing at
    draw number [k0]. *)
Definition jittersFrom (host : Host) (w : World) (base spread : Z) (k0 n : nat)
    : list number :=
  (λ j, Math_round host
          (Num.add (Num.lit base) (Num.mul (random w (k0 + j)) (Num.lit spread))))
  <$> seq 0 n.

(** Every timestamp parses, and each one after the first lies exactly one
    hour after its predecessor. *)
Fixpoint oneHourApart (host : Host) (times : list string) : bool :=
  match times with
  | [] => true
  | s1 :: rest =>
      match rest with
      | [] => bool_decide (is_Some (Date_parse host s1))
      | s2 :: _ =>
          match Date_parse host s1, Date_parse host s2 with
          | Some t1, Some t2 =>
              bool_decide (t2 = t1 + DateModel.msPerHour) && oneHourApart host rest
          | _, _ => false
          end
      end
  end.

(** ** Two concrete hosts

    A host on UTC and a host on a fixed offset of seven hours, with the ISO
    8601 text format and its parser over the proleptic Gregorian calendar
    (years 0 to 9999).  They instantiate the host record wherever a concrete
    run is evaluated. *)

Module ExampleHost.

Definition civilFromDays (days : Z) : Z * Z * Z :=
  let z := days + 719468 in
  let era := z `div` 146097 in
  let doe := z - era * 146097 in
  let yoe := (doe - doe `div` 1460 + doe `div` 36524 - doe `div` 146096) `div` 365 in
  let doy := doe - (365 * yoe + yoe `div` 4 - yoe `div` 100) in
  let mp := (5 * doy + 2) `div` 153 in
  let d := doy - (153 * mp + 2) `div` 5 + 1 in
  let m := if mp <? 10 then mp + 3 else mp - 9 in
  let y := yoe + era * 400 + (if m <=? 2 then 1 else 0) in
  (y, m, d).

Definition daysFromCivil (y m d : Z) : Z :=
  let y' := if m <=? 2 then y - 1 else y in
  let era := y' `div` 400 in
  let yoe := y' - era * 400 in
  let doy := (153 * (if 2 <? m then m - 3 else m + 9) + 2) `div` 5 + d - 1 in
  let doe := yoe * 365 + yoe `div` 4 - yoe `div` 100 + doy in
  era * 146097 + doe - 719468.

Definition digitChar (n : Z) : ascii := ascii_of_nat (48 + Z.to_nat (n `mod` 10)).

(** Zero-padded decimal of the given width. *)
Fixpoint padded (width : nat) (n : Z) : string :=
  match width with
  | O => EmptyString
  | S w => padded w (n `div` 10) +:+ String (digitChar n) EmptyString
  end.

Definition iso (t : Z) : string :=
  let '(y, m, d) := civilFromDays (DateModel.Day t) in
  padded 4 y +:+ "-" +:+ padded 2 m +:+ "-" +:+ padded 2 d +:+ "T" +:+
  padded 2 (DateModel.HourFromTime t) +:+ ":" +:+
  padded 2 (DateModel.MinFromTime t) +:+ ":" +:+
  padded 2 (DateModel.SecFromTime t) +:+ "." +:+
  padded 3 (DateModel.msFromTime t) +:+ "Z".

Definition digitOf (c : ascii) : option Z :=
  let n := Z.of_nat (nat_of_ascii c) in
  if bool_decide (48 ≤ n ≤ 57) then Some (n - 48) else None.

Fixpoint decimalFrom (acc : Z) (cs : list ascii) : option Z :=
  match cs with
  | [] => Some acc
  | c :: cs' => d ← digitOf c; decimalFrom (acc * 10 + d) cs'
  end.

Definition field (from len : nat) (cs : list ascii) : option Z :=
  let part := take len (drop from cs) in
  if bool_decide (length part = len) then decimalFrom 0 part else None.

Definition sepAt (i : nat) (c : ascii) (cs : list ascii) : option unit :=
  if bool_decide (cs !! i = Some c) then Some tt else None.

(** Accepts [YYYY-MM-DD] (midnight UTC) and [YYYY-MM-DDTHH:mm:ss.sssZ]. *)
Definition parse (s : string) : option Z :=
  let cs := list_ascii_of_string s in
  y ← field 0 4 cs; _ ← sepAt 4 "-"%char cs;
  m ← field 5 2 cs; _ ← sepAt 7 "-"%char cs;
  d ← field 8 2 cs;
  let day := daysFromCivil y m d in
  if bool_decide (length cs = 10%nat) then Some (DateModel.MakeDate day 0)
  else if bool_decide (length cs = 24%nat) then
    _ ← sepAt 10 "T"%char cs;
    hh ← field 11 2 cs; _ ← sepAt 13 ":"%char cs;
    mm ← field 14 2 cs; _ ← sepAt 16 ":"%char cs;
    ss ← field 17 2 cs; _ ← sepAt 19 "."%char cs;
    ms ← field 20 3 cs; _ ← sepAt 23 "Z"%char cs;
    Some (DateModel.MakeDate day (DateModel.MakeTime hh mm ss ms))
  else None.

(** Nearest integer, ties towards positive infinity. *)
Definition round (x : number) : number :=
  match x with
  | S754_finite s m e =>
      if 0 <=? e then x
      else
        let k := - e in
        let n := (2 * cond_Zopp s (Zpos m) + 2 ^ k) `div` 2 ^ (k + 1) in
        if n =? 0 then S754_zero s else Num.lit n
  | _ => x
  end.

Definition utc : Host := mkHost (λ _ _, 0) iso parse round (λ _, false).

Definition hanoi : Host :=
  mkHost (λ _ _, 7 * DateModel.msPerHour) iso parse round (λ _, false).

(** A zone five hours behind UTC that moves to four hours behind at UTC
    instant [switch]; local times skipped by the change are read with the
    earlier offset. *)
Definition springForward (switch : Z) : Host :=
  mkHost (λ t isUTC,
            if isUTC
            then (if t <? switch then -5 else -4) * DateModel.msPerHour
            else (if t <? switch - 4 * DateModel.msPerHour then -5 else -4)
                 * DateModel.msPerHour)
         iso parse round (λ _, false).

(** A world whose clock advances one millisecond between two reads and
    whose random source cycles through 0, 1/4, 1/2, 3/4. *)
Definition quarters (k : nat) : number :=
  SFdiv Num.prec Num.emax (Num.lit (Z.of_nat (k `mod` 4))) (Num.lit 4).

Definition ticking (start : Z) : World :=
  mkWorld (λ k, start + Z.of_nat k) 0 quarters 0.

(** A world whose clock stands still during a render. *)
Definition frozen (start : Z) : World :=
  mkWorld (λ _, start) 0 quarters 0.

End ExampleHost.

(** ** Observations on a render *)

(** The [time] array of the forecast fallback built in world [w]. *)
Definition forecastTimes (host : Host) (w : World) : option (list string) :=
  match fallbackAqiForecastData host w with
  | inr (d, _) => fc_time <$> hourly d
  | inl _ => None
  end.

(** ** Concrete inputs *)

Module Scenario.

Import ExampleHost.

(** 2024-11-02T03:04:05.123Z *)
Definition t0 : Z := 1730516645123.

(** [n] ISO timestamps one hour apart, starting at [start]. *)
Definition hoursFrom (start : Z) (n : nat) : list string :=
  (λ k, iso (start + Z.of_nat k * DateModel.msPerHour)) <$> seq 0 n.

Definition daysFrom (start : Z) (n : nat) : list string :=
  (λ k, iso (start + Z.of_nat k * DateModel.msPerDay)) <$> seq 0 n.

Definition ramp (base : Z) (n : nat) : list number :=
  (λ k, Num.lit (base + Z.of_nat k)) <$> seq 0 n.

(** Thirty hourly entries, with [pm2_5] present and [pm10] absent. *)
Definition forecast30 : AqiForecastData :=
  {| hourly := Some {|
       fc_time := hoursFrom t0 30;
       european_aqi := ramp 60 30;
       fc_pm2_5 := Some (ramp 10 30);
       fc_pm10 := None |} |}.

(** Five hours of timestamps, two [european_aqi] values, one [pm2_5] value
    and an empty [pm10] series. *)
Definition forecastShort : AqiForecastData :=
  {| hourly := Some {|
       fc_time := hoursFrom t0 5;
       european_aqi := ramp 60 2;
       fc_pm2_5 := Some (ramp 10 1);
       fc_pm10 := Some [] |} |}.

Definition pollenTwoDays : PollenData :=
  {| daily := Some {|
       daily_time := ["2024-01-01"; "2024-01-02"];
       grass_pollen := [Num.lit 1; Num.lit 2];
       tree_pollen := [Num.lit 3; Num.lit 4];
       weed_pollen := [Num.lit 5; Num.lit 6] |} |}.

Definition pollen30 : PollenData :=
  {| daily := Some {|
       daily_time := daysFrom 1704067200000 30;
       grass_pollen := ramp 1 30;
       tree_pollen := ramp 2 30;
       weed_pollen := ramp 3 30 |} |}.

(** Three days of dates, with shorter value series. *)
Definition pollenShort : PollenData :=
  {| daily := Some {|
       daily_time := daysFrom 1704067200000 3;
       grass_pollen := ramp 1 1;
       tree_pollen := [];
       weed_pollen := ramp 3 2 |} |}.

Definition idle {A} : QueryResult A := mkQuery None false None.

(** The air-quality query has settled as failed; the other queries are
    idle. *)
Definition airQualityFailed : HealthState :=
  {| user := None;
     airQuality := mkQuery None false (Some "Network Error");
     aqiForecast := idle;
     healthRecommendations := idle;
     pollen := idle |}.

End Scenario.

(** ** Query gating

    Three of the four queries are enabled only while their tab is the
    active one. *)

Definition enabled_airQuality (activeTab : string) : bool := true.

Definition enabled_aqiForecast (activeTab : string) : bool :=
  String.eqb activeTab "air-quality".

Definition enabled_healthRecommendations (activeTab : string) : bool :=
  String.eqb activeTab "recommendations".

Definition enabled_pollen (activeTab : string) : bool :=
  String.eqb activeTab "pollen".

(** The instants of all 24 entries of a [time] array built in world [w]
    lie inside the date range. *)
Definition StampsInRange (host : Host) (w : World) : Prop :=
  ∀ j, (j < 24)%nat →
    Z.abs (shifted host (clock w (clockReads w + j)) (Z.of_nat j))
    ≤ DateModel.maxTime.

(** The abbreviation of weekday number [n] (0 is Sunday). *)
Definition dayName (n : Z) : string :=
  default "Invalid Date" (DateModel.weekdayNames !! Z.to_nat n).

(** The position of a tier in the ascending list of tiers. *)
Fixpoint positionOf (l : string) (cs : list AqiCategory) : nat :=
  match cs with
  | [] => 0
  | c :: cs' => if String.eqb l (label c) then 0 else S (positionOf l cs')
  end.

Definition severity (c : AqiCategory) : nat := positionOf (label c) tiers.

(** ** Inputs cut to what the shapers look at *)

Definition truncate24 (h : AqiForecastHourly) : AqiForecastHourly :=
  {| fc_time := take 24 (fc_time h);
     european_aqi := take 24 (european_aqi h);
     fc_pm2_5 := take 24 <$> fc_pm2_5 h;
     fc_pm10 := take 24 <$> fc_pm10 h |}.

Definition truncateToTime (dl : PollenDaily) : PollenDaily :=
  let n := length (daily_time dl) in
  {| daily_time := daily_time dl;
     grass_pollen := take n (grass_pollen dl);
     tree_pollen := take n (tree_pollen dl);
     weed_pollen := take n (weed_pollen dl) |}.

Module Scenario2.

(** The air-quality query holds data; the other queries are idle. *)
Definition airQualityLoaded : HealthState :=
  {| user := Some (mkUser (Some (mkUserProfile (Some (mkHealthProfile true true)))));
     airQuality := mkQuery
       (Some {| current := {|
                  cur_pm2_5 := Num.lit 25; cur_pm10 := Num.lit 40;
                  cur_no2 := Num.lit 15; cur_o3 := Num.lit 30;
                  cur_so2 := Num.lit 8; cur_co := Num.lit 4;
                  cur_aqi := Num.lit 120;
                  cur_aqiCategory := VUndefined |};
                aq_hourly := None |})
       false None;
     aqiForecast := Scenario.idle;
     healthRecommendations := Scenario.idle;
     pollen := Scenario.idle |}.

(** Five hourly entries of which the third does not parse. *)
Definition forecastBadStamp : AqiForecastHourly :=
  {| fc_time := ["2024-11-02T03:00:00.000Z"; "2024-11-02T04:00:00.000Z";
                 "not a date"; "2024-11-02T06:00:00.000Z";
                 "2024-11-02T07:00:00.000Z"];
     european_aqi := Scenario.ramp 60 5;
     fc_pm2_5 := None;
     fc_pm10 := None |}.

(** A zone five hours behind UTC. *)
Definition newYork : Host :=
  mkHost (λ _ _, -5 * DateModel.msPerHour)
         ExampleHost.iso ExampleHost.parse ExampleHost.round (λ _, false).

(** A zone four hours behind UTC that moves to five hours behind at UTC
    instant [switch]; local times that occur twice are read with the
    earlier offset. *)
Definition fallBack (switch : Z) : Host :=
  mkHost (λ t isUTC,
            if isUTC
            then (if t <? switch then -4 else -5) * DateModel.msPerHour
            else (if t <? switch - 4 * DateModel.msPerHour then -4 else -5)
                 * DateModel.msPerHour)
         ExampleHost.iso ExampleHost.parse ExampleHost.round (λ _, false).

(** A clock one hour short of the end of the date range. *)
Definition endOfTime : World :=
  mkWorld (λ _, DateModel.maxTime - DateModel.msPerHour) 0 ExampleHost.quarters 0.

End Scenario2.

(** * Properties *)

(** ** Order facts about [number] used by the classifier *)

Section NumberOrder.

Lemma SFcompare_swap (a b : spec_float) :
  SFcompare b a = CompOpp <$> SFcompare a b.
Proof.
  destruct a as [sa|sa| |sa ma ea], b as [sb|sb| |sb mb eb]; simpl;
    try reflexivity; try (destruct sa; reflexivity);
    try (destruct sb; reflexivity);
    try (destruct sa, sb; reflexivity).
  destruct sa, sb; simpl; try reflexivity; f_equal;
    rewrite (Z.compare_antisym ea eb);
    destruct (ea ?= eb) eqn:E; simpl; try reflexivity;
    rewrite !Pos.compare_cont_spec; simpl;
    rewrite (Pos.compare_antisym ma mb);
    destruct (ma ?= mb)%positive; reflexivity.
Qed.

(** [a > b] excludes [a <= b]. *)
Lemma gt_not_le (a b : number) : Num.gt a b = true → Num.le a b = false.
Proof.
  unfold Num.gt, Num.le, SFltb, SFleb.
  rewrite (SFcompare_swap b a).
  destruct (SFcompare b a) as [[]|]; simpl; congruence.
Qed.

(** Lexicographic order on (exponent, mantissa) of positive finite values. *)
Definition lex_le (m1 : positive) (e1 : Z) (m2 : positive) (e2 : Z) : Prop :=
  e1 < e2 ∨ (e1 = e2 ∧ (m1 <= m2)%positive).

Lemma le_finite_mono (x : number) m1 e1 m2 e2 :
  lex_le m1 e1 m2 e2 →
  Num.le x (S754_finite false m1 e1) = true →
  Num.le x (S754_finite false m2 e2) = true.
Proof.
  intros Hlex. unfold Num.le, SFleb.
  destruct x as [s|s| |s m e]; simpl; try (destruct s; simpl; congruence).
  - congruence.
  - destruct s; simpl; [reflexivity|].
    destruct (Z.compare_spec e e1) as [->|Hlt|Hgt]; simpl; try congruence.
    + rewrite Pos.compare_cont_spec; simpl.
      destruct Hlex as [Hlt|[-> Hm]].
      * rewrite (proj2 (Z.compare_lt_iff e1 e2)) by lia. reflexivity.
      * rewrite Z.compare_refl, Pos.compare_cont_spec; simpl.
        destruct (Pos.compare_spec m m1) as [->|H1|H1]; simpl; try congruence; intros _.
        -- destruct (Pos.compare_spec m1 m2); try reflexivity; lia.
        -- destruct (Pos.compare_spec m m2); try reflexivity; lia.
    + intros _. rewrite (proj2 (Z.compare_lt_iff e e2)); [reflexivity|].
      destruct Hlex as [?|[? _]]; lia.
Qed.

End NumberOrder.

(** ** Time arithmetic *)

Section DateFacts.
Import DateModel.

(** Replacing the hour field of a local time by [hour + i] moves the time
    by exactly [i] hours. *)
Lemma MakeDate_shift_hours (tl i : Z) :
  MakeDate (Day tl)
    (MakeTime (HourFromTime tl + i) (MinFromTime tl) (SecFromTime tl)
              (msFromTime tl))
  = tl + i * msPerHour.
Proof.
  unfold MakeDate, MakeTime, Day, HourFromTime, MinFromTime, SecFromTime,
    msFromTime, msPerDay, msPerHour, msPerMinute, msPerSecond.
  Z.div_mod_to_equations. lia.
Qed.

Lemma HourFromTime_range (t : Z) : 0 ≤ HourFromTime t < 24.
Proof. unfold HourFromTime. apply Z.mod_pos_bound. lia. Qed.

Lemma WeekDay_range (t : Z) : 0 ≤ WeekDay t < 7.
Proof. unfold WeekDay. apply Z.mod_pos_bound. lia. Qed.

End DateFacts.

(** ** The classifier *)

Section Classifier.

Lemma lit_50 : Num.lit 50 = S754_finite false 7036874417766400 (-47).
Proof. reflexivity. Qed.
Lemma lit_100 : Num.lit 100 = S754_finite false 7036874417766400 (-46).
Proof. reflexivity. Qed.
Lemma lit_150 : Num.lit 150 = S754_finite false 5277655813324800 (-45).
Proof. reflexivity. Qed.
Lemma lit_200 : Num.lit 200 = S754_finite false 7036874417766400 (-45).
Proof. reflexivity. Qed.
Lemma lit_300 : Num.lit 300 = S754_finite false 5277655813324800 (-44).
Proof. reflexivity. Qed.

Ltac in_tiers := apply list_elem_of_In; simpl; tauto.

(** Every band statement follows from the comparisons already decided. *)
Ltac settle_bands :=
  repeat split; try in_tiers; intros; destruct_and?;
  repeat match goal with
         | G : Num.gt _ _ = true |- _ => apply gt_not_le in G
         end; congruence.

Ltac ladder_step :=
  intros H; eapply le_finite_mono; [|exact H]; unfold lex_le; lia.

Lemma le_50_100 (x : number) :
  Num.le x (Num.lit 50) = true → Num.le x (Num.lit 100) = true.
Proof. rewrite lit_50, lit_100. ladder_step. Qed.

Lemma le_100_150 (x : number) :
  Num.le x (Num.lit 100) = true → Num.le x (Num.lit 150) = true.
Proof. rewrite lit_100, lit_150. ladder_step. Qed.

Lemma le_150_200 (x : number) :
  Num.le x (Num.lit 150) = true → Num.le x (Num.lit 200) = true.
Proof. rewrite lit_150, lit_200. ladder_step. Qed.

Lemma le_200_300 (x : number) :
  Num.le x (Num.lit 200) = true → Num.le x (Num.lit 300) = true.
Proof. rewrite lit_200, lit_300. ladder_step. Qed.

Lemma tier_labels_distinct : NoDup (label <$> tiers).
Proof. apply (bool_decide_unpack _). vm_compute. reflexivity. Qed.

(** C2. [getAQICategory] is total and lands in exactly one of the six
    tiers: a number at most 50 is Good, one above 50 and at most 100 is
    Moderate, then Unhealthy for Sensitive Groups up to 150, Unhealthy up
    to 200, Very Unhealthy up to 300, and every number above 300 is
    Hazardous; the label fixes the colour pair; the result changes between
    50 and 51, 100 and 101, 150 and 151, 200 and 201, and 300 is Very
    Unhealthy while 301 is Hazardous. *)
Theorem getAQICategory_six_tiers :
  (∀ x : number,
     getAQICategory x ∈ tiers
     ∧ (Num.le x (Num.lit 50) = true → getAQICategory x = Good)
     ∧ (inBand 50 100 x → getAQICategory x = Moderate)
     ∧ (inBand 100 150 x → getAQICategory x = UnhealthySensitive)
     ∧ (inBand 150 200 x → getAQICategory x = Unhealthy)
     ∧ (inBand 200 300 x → getAQICategory x = VeryUnhealthy)
     ∧ (Num.gt x (Num.lit 300) = true → getAQICategory x = Hazardous))
  ∧ NoDup (label <$> tiers)
  ∧ (∀ x y : number,
       label (getAQICategory x) = label (getAQICategory y) →
       getAQICategory x = getAQICategory y)
  ∧ getAQICategory (Num.lit 50) = Good
  ∧ getAQICategory (Num.lit 51) = Moderate
  ∧ getAQICategory (Num.lit 100) = Moderate
  ∧ getAQICategory (Num.lit 101) = UnhealthySensitive
  ∧ getAQICategory (Num.lit 150) = UnhealthySensitive
  ∧ getAQICategory (Num.lit 151) = Unhealthy
  ∧ getAQICategory (Num.lit 200) = Unhealthy
  ∧ getAQICategory (Num.lit 201) = VeryUnhealthy
  ∧ getAQICategory (Num.lit 300) = VeryUnhealthy
  ∧ getAQICategory (Num.lit 301) = Hazardous.
Proof.
  split; [|split; [exact tier_labels_distinct|split]].
  - intros x. unfold inBand, getAQICategory, tiers.
    destruct (Num.le x (Num.lit 50)) eqn:E50.
    { pose proof (le_50_100 x E50) as E100.
      pose proof (le_100_150 x E100) as E150.
      pose proof (le_150_200 x E150) as E200.
      pose proof (le_200_300 x E200) as E300.
      settle_bands. }
    destruct (Num.le x (Num.lit 100)) eqn:E100.
    { pose proof (le_100_150 x E100) as E150.
      pose proof (le_150_200 x E150) as E200.
      pose proof (le_200_300 x E200) as E300.
      settle_bands. }
    destruct (Num.le x (Num.lit 150)) eqn:E150.
    { pose proof (le_150_200 x E150) as E200.
      pose proof (le_200_300 x E200) as E300.
      settle_bands. }
    destruct (Num.le x (Num.lit 200)) eqn:E200.
    { pose proof (le_200_300 x E200) as E300.
      settle_bands. }
    destruct (Num.le x (Num.lit 300)) eqn:E300.
    { settle_bands. }
    settle_bands.
  - intros x y. unfold getAQICategory.
    repeat match goal with
           | |- context [if ?c then _ else _] => destruct c
           end; simpl; intros H; try reflexivity; discriminate H.
  - repeat split; vm_compute; reflexivity.
Qed.

(** An index of 75 lies in the second band and 1000 is above every
    threshold. *)
Lemma getAQICategory_six_tiers_witness :
  getAQICategory (Num.lit 75) = Moderate
  ∧ getAQICategory (Num.lit 1000) = Hazardous
  ∧ getAQICategory Num.NaN ∈ tiers.
Proof.
  destruct getAQICategory_six_tiers as (Hall & _).
  split; [|split].
  - apply (Hall (Num.lit 75)). split; vm_compute; reflexivity.
  - apply (Hall (Num.lit 1000)). vm_compute. reflexivity.
  - apply (Hall Num.NaN).
Defined.

End Classifier.

(** ** The chart shapers *)

Section Shapers.
Variable host : Host.

Lemma formatAqiForecastData_length (h : AqiForecastHourly) :
  length (formatAqiForecastData host (Some (mkAqiForecastData (Some h))))
  = min 24 (length (fc_time h)).
Proof. simpl. by rewrite length_imap, length_take. Qed.

Lemma formatAqiForecastData_lookup (h : AqiForecastHourly) (i : nat) (time : string) :
  (i < 24)%nat →
  fc_time h !! i = Some time →
  formatAqiForecastData host (Some (mkAqiForecastData (Some h))) !! i
  = Some {|
      name := NameNumber (numOfInt (DateModel.getHours host
                                      (DateModel.newDateOf host time)));
      aqi := european_aqi h !! i;
      pm2_5 := a ← fc_pm2_5 h; a !! i;
      pm10 := a ← fc_pm10 h; a !! i;
      grass := None; tree := None; weed := None |}.
Proof.
  intros Hi Ht. simpl.
  rewrite list_lookup_imap, lookup_take_lt, Ht by done. simpl.
  by destruct (fc_pm2_5 h), (fc_pm10 h).
Qed.

Lemma formatAqiForecastData_beyond (h : AqiForecastHourly) (i : nat) :
  (24 ≤ i)%nat →
  formatAqiForecastData host (Some (mkAqiForecastData (Some h))) !! i = None.
Proof.
  intros Hi. apply lookup_ge_None_2.
  rewrite formatAqiForecastData_length. lia.
Qed.

Lemma formatPollenData_length (dl : PollenDaily) :
  length (formatPollenData host (Some (mkPollenData (Some dl))))
  = length (daily_time dl).
Proof. simpl. by rewrite length_imap. Qed.

Lemma formatPollenData_lookup (dl : PollenDaily) (i : nat) (date : string) :
  daily_time dl !! i = Some date →
  formatPollenData host (Some (mkPollenData (Some dl))) !! i
  = Some {|
      name := NameString (DateModel.weekdayShort host
                            (DateModel.newDateOf host date));
      aqi := None; pm2_5 := None; pm10 := None;
      grass := grass_pollen dl !! i;
      tree := tree_pollen dl !! i;
      weed := weed_pollen dl !! i |}.
Proof. intros Ht. simpl. by rewrite list_lookup_imap, Ht. Qed.

(** The hour label of a timestamp the host can parse is an integer between
    0 and 23. *)
Lemma hour_label_range (time : string) (t : Z) :
  DateModel.newDateOf host time = Some t →
  ∃ hr, 0 ≤ hr < 24 ∧
    numOfInt (DateModel.getHours host (DateModel.newDateOf host time))
    = Num.lit hr.
Proof.
  intros ->. simpl. eexists; split; [apply HourFromTime_range|reflexivity].
Qed.

End Shapers.

(** C5. With an [hourly] field present, [formatAqiForecastData] yields at
    most 24 points, exactly [min 24 (length time)] of them; point [i] carries
    the hour of day of [time[i]] as its name, [european_aqi[i]] as [aqi], and
    the entries at [i] of the optional series when those are present.  With
    30 timestamps and 30 [european_aqi] values the output has exactly 24
    points, in input order, each with a defined [aqi]. *)
Theorem formatAqiForecastData_first_24
    (host : Host) (d : AqiForecastData) (h : AqiForecastHourly) :
  hourly d = Some h →
  let out := formatAqiForecastData host (Some d) in
  (length out ≤ 24)%nat
  ∧ length out = min 24 (length (fc_time h))
  ∧ (∀ i time, (i < 24)%nat → fc_time h !! i = Some time →
       ∃ pt, out !! i = Some pt
         ∧ name pt = NameNumber (numOfInt (DateModel.getHours host
                                            (DateModel.newDateOf host time)))
         ∧ aqi pt = european_aqi h !! i
         ∧ pm2_5 pt = (a ← fc_pm2_5 h; a !! i)
         ∧ pm10 pt = (a ← fc_pm10 h; a !! i))
  ∧ (∀ i time t, (i < 24)%nat → fc_time h !! i = Some time →
       DateModel.newDateOf host time = Some t →
       ∃ pt hr, out !! i = Some pt ∧ 0 ≤ hr < 24
         ∧ name pt = NameNumber (Num.lit hr))
  ∧ (length (fc_time h) = 30%nat → length (european_aqi h) = 30%nat →
       length out = 24%nat
       ∧ ∀ i, (i < 24)%nat →
           ∃ time v pt, fc_time h !! i = Some time
             ∧ european_aqi h !! i = Some v
             ∧ out !! i = Some pt
             ∧ name pt = NameNumber (numOfInt (DateModel.getHours host
                                                (DateModel.newDateOf host time)))
             ∧ aqi pt = Some v).
Proof.
  destruct d as [o]; simpl hourly; intros ->; intros out.
  assert (Hlen : length out = min 24 (length (fc_time h)))
    by apply formatAqiForecastData_length.
  split; [lia|]. split; [exact Hlen|]. split; [|split].
  - intros i time Hi Ht. eexists. split.
    + by apply formatAqiForecastData_lookup.
    + done.
  - intros i time t Hi Ht Hp.
    destruct (hour_label_range host time t Hp) as (hr & Hr & Heq).
    eexists _, hr. split; [by apply formatAqiForecastData_lookup|].
    split; [exact Hr|]. simpl. by rewrite Heq.
  - intros Ht Ha. split; [lia|]. intros i Hi.
    destruct (lookup_lt_is_Some_2 (fc_time h) i) as [time Htime]; [lia|].
    destruct (lookup_lt_is_Some_2 (european_aqi h) i) as [v Hv]; [lia|].
    eexists time, v, _. split; [done|]. split; [done|].
    split; [by apply formatAqiForecastData_lookup|]. done.
Qed.

(** Thirty hourly timestamps from 03:04 UTC on a host seven hours ahead:
    24 points, the first labelled 10 and the last 9 (the next morning). *)
Lemma formatAqiForecastData_first_24_witness :
  let out := formatAqiForecastData ExampleHost.hanoi (Some Scenario.forecast30) in
  length out = 24%nat
  ∧ name <$> out !! 0%nat = Some (NameNumber (Num.lit 10))
  ∧ aqi <$> out !! 0%nat = Some (Some (Num.lit 60))
  ∧ name <$> out !! 23%nat = Some (NameNumber (Num.lit 9))
  ∧ aqi <$> out !! 23%nat = Some (Some (Num.lit 83)).
Proof.
  intros out.
  destruct (formatAqiForecastData_first_24 ExampleHost.hanoi Scenario.forecast30
              _ eq_refl) as (_ & _ & _ & _ & H30).
  destruct (H30 ltac:(vm_compute; reflexivity) ltac:(vm_compute; reflexivity))
    as [Hlen _].
  split; [exact Hlen|]. vm_compute. repeat split; reflexivity.
Defined.

(** C6. With the input absent, or present without an [hourly] field (the
    empty object included), [formatAqiForecastData] returns the empty
    sequence; likewise [formatPollenData] without a [daily] field.  Neither
    shaper reads a property of the missing structure. *)
Theorem shapers_empty_on_missing (host : Host) :
  formatAqiForecastData host None = []
  ∧ formatAqiForecastData host (Some (mkAqiForecastData None)) = []
  ∧ (∀ d, hourly d = None → formatAqiForecastData host (Some d) = [])
  ∧ formatPollenData host None = []
  ∧ formatPollenData host (Some (mkPollenData None)) = []
  ∧ (∀ p, daily p = None → formatPollenData host (Some p) = []).
Proof.
  repeat split; try reflexivity.
  - intros [o]; simpl; by intros ->.
  - intros [o]; simpl; by intros ->.
Qed.

Lemma shapers_empty_on_missing_witness :
  formatAqiForecastData ExampleHost.utc (Some (mkAqiForecastData None)) = []
  ∧ formatPollenData ExampleHost.utc (Some (mkPollenData None)) = [].
Proof.
  destruct (shapers_empty_on_missing ExampleHost.utc)
    as (_ & _ & Hf & _ & _ & Hp).
  split; [apply Hf|apply Hp]; reflexivity.
Defined.

(** C7. With a [daily] field present, [formatPollenData] emits one point per
    index of [daily.time]; point [i] is named by the weekday abbreviation of
    [time[i]] and carries [grass_pollen[i]], [tree_pollen[i]] and
    [weed_pollen[i]].  For the two-day input the first point carries grass 1,
    tree 3, weed 5 and the second grass 2, tree 4, weed 6, on every host. *)
Theorem formatPollenData_points
    (host : Host) (p : PollenData) (dl : PollenDaily) :
  daily p = Some dl →
  let out := formatPollenData host (Some p) in
  length out = length (daily_time dl)
  ∧ (∀ i date, daily_time dl !! i = Some date →
       ∃ pt, out !! i = Some pt
         ∧ name pt = NameString (DateModel.weekdayShort host
                                   (DateModel.newDateOf host date))
         ∧ grass pt = grass_pollen dl !! i
         ∧ tree pt = tree_pollen dl !! i
         ∧ weed pt = weed_pollen dl !! i)
  ∧ (∀ i, out !! i = None ↔ daily_time dl !! i = None)
  ∧ (p = Scenario.pollenTwoDays →
       ∃ n1 n2,
         out = [ mkPoint n1 None None None
                   (Some (Num.lit 1)) (Some (Num.lit 3)) (Some (Num.lit 5));
                 mkPoint n2 None None None
                   (Some (Num.lit 2)) (Some (Num.lit 4)) (Some (Num.lit 6)) ]).
Proof.
  destruct p as [o]; simpl daily; intros ->; intros out.
  assert (Hlen : length out = length (daily_time dl))
    by apply formatPollenData_length.
  split; [exact Hlen|]. split; [|split].
  - intros i date Hd. eexists. split; [by apply formatPollenData_lookup|done].
  - intros i. rewrite !lookup_ge_None, Hlen. done.
  - intros Heq. subst out. injection Heq as ->. eexists _, _. reflexivity.
Qed.

(** On a UTC host the two days are a Monday and a Tuesday. *)
Lemma formatPollenData_points_witness :
  let out := formatPollenData ExampleHost.utc (Some Scenario.pollenTwoDays) in
  length out = 2%nat
  ∧ name <$> out !! 0%nat = Some (NameString "Mon")
  ∧ grass <$> out !! 0%nat = Some (Some (Num.lit 1))
  ∧ tree <$> out !! 0%nat = Some (Some (Num.lit 3))
  ∧ weed <$> out !! 0%nat = Some (Some (Num.lit 5)).
Proof.
  intros out.
  destruct (formatPollenData_points ExampleHost.utc Scenario.pollenTwoDays
              _ eq_refl) as (Hlen & _ & _ & Hc).
  destruct (Hc eq_refl) as (n1 & n2 & Hout).
  split; [exact Hlen|]. vm_compute. repeat split; reflexivity.
Defined.

(** C9. When a value series is shorter than its [time] array, both shapers
    still return one point per time index in scope (the first 24 for the
    forecast, all of them for pollen); a field whose series has no entry at
    that index is absent in the point. *)
Theorem shapers_tolerate_short_series (host : Host) :
  (∀ h : AqiForecastHourly,
     let out := formatAqiForecastData host (Some (mkAqiForecastData (Some h))) in
     length out = min 24 (length (fc_time h))
     ∧ ∀ i, (i < min 24 (length (fc_time h)))%nat →
         ∃ pt, out !! i = Some pt
           ∧ ((length (european_aqi h) ≤ i)%nat → aqi pt = None)
           ∧ (∀ a, fc_pm2_5 h = Some a → (length a ≤ i)%nat → pm2_5 pt = None)
           ∧ (∀ a, fc_pm10 h = Some a → (length a ≤ i)%nat → pm10 pt = None))
  ∧ (∀ dl : PollenDaily,
       let out := formatPollenData host (Some (mkPollenData (Some dl))) in
       length out = length (daily_time dl)
       ∧ ∀ i, (i < length (daily_time dl))%nat →
           ∃ pt, out !! i = Some pt
             ∧ ((length (grass_pollen dl) ≤ i)%nat → grass pt = None)
             ∧ ((length (tree_pollen dl) ≤ i)%nat → tree pt = None)
             ∧ ((length (weed_pollen dl) ≤ i)%nat → weed pt = None)).
Proof.
  split.
  - intros h out. split; [apply formatAqiForecastData_length|].
    intros i Hi.
    destruct (lookup_lt_is_Some_2 (fc_time h) i) as [time Ht]; [lia|].
    eexists. split; [apply formatAqiForecastData_lookup; [lia|exact Ht]|].
    simpl. repeat split.
    + intros Hl. by apply lookup_ge_None_2.
    + intros a -> Hl. simpl. by apply lookup_ge_None_2.
    + intros a -> Hl. simpl. by apply lookup_ge_None_2.
  - intros dl out. split; [apply formatPollenData_length|].
    intros i Hi.
    destruct (lookup_lt_is_Some_2 (daily_time dl) i) as [date Hd]; [lia|].
    eexists. split; [apply formatPollenData_lookup; exact Hd|].
    simpl. repeat split; intros Hl; by apply lookup_ge_None_2.
Qed.

(** Five timestamps against two, one and zero values; three dates against
    one, zero and two values. *)
Lemma shapers_tolerate_short_series_witness :
  (∃ pt, formatAqiForecastData ExampleHost.hanoi (Some Scenario.forecastShort)
           !! 4%nat = Some pt
     ∧ aqi pt = None ∧ pm2_5 pt = None ∧ pm10 pt = None)
  ∧ (∃ pt, formatPollenData ExampleHost.hanoi (Some Scenario.pollenShort)
             !! 2%nat = Some pt
       ∧ grass pt = None ∧ tree pt = None ∧ weed pt = None).
Proof.
  destruct (shapers_tolerate_short_series ExampleHost.hanoi) as [Hf Hp].
  split.
  - destruct (Hf (mkAqiForecastHourly (Scenario.hoursFrom Scenario.t0 5)
                    (Scenario.ramp 60 2) (Some (Scenario.ramp 10 1)) (Some [])))
      as [_ Hpts].
    destruct (Hpts 4%nat ltac:(vm_compute; lia)) as (pt & Hpt & Ha & H25 & H10).
    exists pt. split; [exact Hpt|]. split; [|split].
    + apply Ha. vm_compute. lia.
    + apply (H25 _ eq_refl). vm_compute. lia.
    + apply (H10 _ eq_refl). simpl. lia.
  - destruct (Hp (mkPollenDaily (Scenario.daysFrom 1704067200000 3)
                    (Scenario.ramp 1 1) [] (Scenario.ramp 3 2)))
      as [_ Hpts].
    destruct (Hpts 2%nat ltac:(vm_compute; lia)) as (pt & Hpt & Hg & Ht & Hw).
    exists pt. split; [exact Hpt|]. split; [|split].
    + apply Hg. vm_compute. lia.
    + apply Ht. simpl. lia.
    + apply Hw. vm_compute. lia.
Defined.

(** C10. With a [daily] field present, the output of [formatPollenData] has
    exactly as many points as [daily.time] has entries; there is no cap, so
    more than 24 entries give more than 24 points, where
    [formatAqiForecastData] on as many timestamps stops at 24. *)
Theorem formatPollenData_not_capped
    (host : Host) (p : PollenData) (dl : PollenDaily) :
  daily p = Some dl →
  length (formatPollenData host (Some p)) = length (daily_time dl)
  ∧ ((24 < length (daily_time dl))%nat →
       (24 < length (formatPollenData host (Some p)))%nat
       ∧ ∀ h : AqiForecastHourly,
           fc_time h = daily_time dl →
           length (formatAqiForecastData host
                     (Some (mkAqiForecastData (Some h)))) = 24%nat).
Proof.
  destruct p as [o]; simpl daily; intros ->.
  rewrite formatPollenData_length. split; [done|].
  intros Hl. split; [done|]. intros h Hh.
  rewrite formatAqiForecastData_length, Hh. lia.
Qed.

Lemma formatPollenData_not_capped_witness :
  length (formatPollenData ExampleHost.hanoi (Some Scenario.pollen30)) = 30%nat
  ∧ (24 < length (formatPollenData ExampleHost.hanoi (Some Scenario.pollen30)))%nat.
Proof.
  destruct (formatPollenData_not_capped ExampleHost.hanoi Scenario.pollen30
              _ eq_refl) as [Hlen Hgt].
  split.
  - rewrite Hlen. vm_compute. reflexivity.
  - apply Hgt. vm_compute. lia.
Defined.

(** ** Running the fallback generators *)

Section Generators.
Variable host : Host.

Lemma setHours_getHours_shift (t i : Z) :
  DateModel.setHours host (Some t)
    ((λ h, h + i) <$> DateModel.getHours host (Some t))
  = DateModel.TimeClip (shifted host t i).
Proof.
  unfold DateModel.setHours, DateModel.getHours, shifted. simpl.
  by rewrite MakeDate_shift_hours.
Qed.

Lemma TimeClip_in_range (t : Z) :
  Z.abs t ≤ DateModel.maxTime → DateModel.TimeClip t = Some t.
Proof. intros H. unfold DateModel.TimeClip. by rewrite bool_decide_eq_true_2. Qed.

Lemma fallbackTimestamp_run (i : nat) (w : World) :
  Z.abs (shifted host (clock w (clockReads w)) (Z.of_nat i)) ≤ DateModel.maxTime →
  fallbackTimestamp host i w
  = inr (isoFormat host (shifted host (clock w (clockReads w)) (Z.of_nat i)),
         afterClockReads 1 w).
Proof.
  intros Hr. unfold fallbackTimestamp, mbind, M_bind, newDate.
  rewrite setHours_getHours_shift, (TimeClip_in_range _ Hr). simpl.
  unfold afterClockReads. do 3 f_equal. lia.
Qed.

Lemma arrayFromAt_timestamps (n i : nat) (w : World) :
  (∀ j, (j < n)%nat →
     Z.abs (shifted host (clock w (clockReads w + j)) (Z.of_nat (i + j)))
     ≤ DateModel.maxTime) →
  arrayFromAt (fallbackTimestamp host) i n w
  = inr ((λ j, isoFormat host
                 (shifted host (clock w (clockReads w + j)) (Z.of_nat (i + j))))
         <$> seq 0 n,
         afterClockReads n w).
Proof.
  revert i w. induction n as [|n IH]; intros i w Hr.
  - destruct w. unfold afterClockReads. simpl. by rewrite Nat.add_0_r.
  - cbn [arrayFromAt]. unfold mbind, M_bind at 1.
    rewrite fallbackTimestamp_run; cycle 1.
    { specialize (Hr 0%nat ltac:(lia)).
      by rewrite !Nat.add_0_r in Hr. }
    unfold M_bind at 1. rewrite IH; cycle 1.
    { intros j Hj. specialize (Hr (S j) ltac:(lia)). simpl.
      replace (S (i + j)) with (i + S j)%nat by lia.
      by replace (clockReads w + 1 + j)%nat with (clockReads w + S j)%nat by lia. }
    unfold mret, M_ret. simpl. f_equal. f_equal.
    + rewrite !Nat.add_0_r. f_equal.
      rewrite <- fmap_S_seq, <- list_fmap_compose.
      apply list_fmap_ext. intros _ j _. simpl.
      replace (clockReads w + 1 + j)%nat with (clockReads w + S j)%nat by lia.
      by replace (S (i + j)) with (i + S j)%nat by lia.
    + unfold afterClockReads. simpl. f_equal. lia.
Qed.

Lemma arrayFromAt_jitter (base spread : Z) (n i : nat) (w : World) :
  arrayFromAt (jitter host base spread) i n w
  = inr (jittersFrom host w base spread (randomDraws w) n, afterRandomDraws n w).
Proof.
  unfold jittersFrom. revert i w. induction n as [|n IH]; intros i w.
  - destruct w. unfold afterRandomDraws. simpl. by rewrite Nat.add_0_r.
  - cbn [arrayFromAt]. unfold mbind, M_bind at 1.
    unfold jitter at 1, mbind, M_bind at 1, Math_random, mret, M_ret.
    unfold M_bind at 1. rewrite IH. simpl. f_equal. f_equal.
    + rewrite !Nat.add_0_r. f_equal.
      rewrite <- fmap_S_seq, <- list_fmap_compose.
      apply list_fmap_ext. intros _ j _. simpl.
      by replace (S (randomDraws w + j)) with (randomDraws w + S j)%nat by lia.
    + unfold afterRandomDraws. simpl. f_equal. lia.
Qed.

Lemma shifted_in_range (t i : Z) :
  BoundedZone host →
  Z.abs t ≤ DateModel.maxTime - 3 * DateModel.msPerDay →
  0 ≤ i ≤ 24 →
  Z.abs (shifted host t i) ≤ DateModel.maxTime.
Proof.
  intros Hb Ht Hi. unfold shifted, DateModel.UTC, DateModel.LocalTime.
  pose proof (Hb t true) as H1.
  pose proof (Hb (t + LocalTZA host t true + i * DateModel.msPerHour) false) as H2.
  unfold DateModel.maxTime, DateModel.msPerDay, DateModel.msPerHour in *. lia.
Qed.

Lemma shifted_fixed (off t i : Z) :
  FixedOffset host off → shifted host t i = t + i * DateModel.msPerHour.
Proof.
  intros Hf. unfold shifted, DateModel.UTC, DateModel.LocalTime.
  rewrite !Hf. lia.
Qed.

Lemma fixed_is_bounded (off : Z) :
  FixedOffset host off → Z.abs off ≤ DateModel.msPerDay → BoundedZone host.
Proof. intros Hf Ho t b. by rewrite Hf. Qed.

Lemma Array_from_timestamps (w : World) :
  BoundedZone host → ClockInRange w 24 →
  Array_from 24 (fallbackTimestamp host) w
  = inr (stampsFrom host w (clockReads w) 24, afterClockReads 24 w).
Proof.
  intros Hb Hc. unfold Array_from. rewrite arrayFromAt_timestamps; [done|].
  intros j Hj. apply shifted_in_range; [done|by apply Hc|lia].
Qed.

Lemma fallbackAqiForecastData_run (w : World) :
  BoundedZone host → ClockInRange w 24 →
  fallbackAqiForecastData host w
  = inr ({| hourly := Some {|
              fc_time := stampsFrom host w (clockReads w) 24;
              european_aqi := jittersFrom host w 75 20 (randomDraws w) 24;
              fc_pm2_5 := None;
              fc_pm10 := None |} |},
         afterRandomDraws 24 (afterClockReads 24 w)).
Proof.
  intros Hb Hc. unfold fallbackAqiForecastData, mbind, M_bind.
  rewrite (Array_from_timestamps w Hb Hc).
  unfold Array_from. rewrite arrayFromAt_jitter. reflexivity.
Qed.

Lemma fallbackAirQualityData_run (w : World) :
  BoundedZone host → ClockInRange w 24 →
  fallbackAirQualityData host w
  = inr ({| current := {|
              cur_pm2_5 := Num.lit 25; cur_pm10 := Num.lit 40;
              cur_no2 := Num.lit 15; cur_o3 := Num.lit 30;
              cur_so2 := Num.lit 8; cur_co := Num.lit 4;
              cur_aqi := Num.lit 85;
              cur_aqiCategory := AqiCategory_val (getAQICategory (Num.lit 85)) |};
            aq_hourly := Some {|
              aq_time := stampsFrom host w (clockReads w) 24;
              aq_pm2_5 := jittersFrom host w 20 10 (randomDraws w) 24;
              aq_pm10 := jittersFrom host w 35 15 (randomDraws w + 24) 24;
              aq_aqi := jittersFrom host w 75 20 (randomDraws w + 24 + 24) 24 |} |},
         afterRandomDraws 72 (afterClockReads 24 w)).
Proof.
  intros Hb Hc. unfold fallbackAirQualityData, mbind, M_bind.
  rewrite (Array_from_timestamps w Hb Hc).
  unfold Array_from. rewrite !arrayFromAt_jitter.
  unfold mret, M_ret. f_equal. f_equal.
  unfold afterRandomDraws, afterClockReads. simpl. f_equal. lia.
Qed.

Lemma ClockInRange_later (w : World) (n m d : nat) :
  ClockInRange w (n + m) →
  ClockInRange (afterRandomDraws d (afterClockReads n w)) m.
Proof.
  intros Hc j Hj. simpl.
  replace (clockReads w + n + j)%nat with (clockReads w + (n + j))%nat by lia.
  apply Hc. lia.
Qed.

Lemma ClockInRange_fewer (w : World) (n m : nat) :
  (m ≤ n)%nat → ClockInRange w n → ClockInRange w m.
Proof. intros Hle Hc j Hj. apply Hc. lia. Qed.

Lemma HealthBindings_run (st : HealthState) (w : World) :
  BoundedZone host → ClockInRange w 48 →
  ∃ fbAir fbForecast w',
    fallbackAirQualityData host w
      = inr (fbAir, afterRandomDraws 72 (afterClockReads 24 w))
    ∧ fallbackAqiForecastData host (afterRandomDraws 72 (afterClockReads 24 w))
      = inr (fbForecast, w')
    ∧ HealthBindings host st w
      = inr ({|
          fallbackAirQualityData_ := fbAir;
          effectiveAirQualityData_ :=
            effectiveAirQualityData (data (airQuality st)) fbAir;
          effectiveHealthRecommendationsData_ :=
            orElseVal (data (healthRecommendations st))
                      fallbackHealthRecommendationsData;
          effectivePollenData_ :=
            match data (pollen st) with
            | Some d => inl d
            | None => inr fallbackPollenData
            end;
          fallbackAqiForecastData_ := fbForecast;
          effectiveAqiForecastData_ := orElse (data (aqiForecast st)) fbForecast
        |}, w').
Proof.
  intros Hb Hc.
  pose proof (fallbackAirQualityData_run w Hb
                (ClockInRange_fewer w 48 24 ltac:(lia) Hc)) as Hair.
  pose proof (fallbackAqiForecastData_run _ Hb
                (ClockInRange_later w 24 24 72 Hc)) as Hfc.
  eexists _, _, _. split; [exact Hair|]. split; [exact Hfc|].
  unfold HealthBindings, mbind, M_bind. rewrite Hair, Hfc. reflexivity.
Qed.

End Generators.

(** ** The fallback series *)

Section FallbackSeries.
Variable host : Host.

Lemma stampsFrom_length (w : World) (k0 n : nat) :
  length (stampsFrom host w k0 n) = n.
Proof. unfold stampsFrom. by rewrite length_fmap, length_seq. Qed.

Lemma jittersFrom_length (w : World) (base spread : Z) (k0 n : nat) :
  length (jittersFrom host w base spread k0 n) = n.
Proof. unfold jittersFrom. by rewrite length_fmap, length_seq. Qed.

Lemma stampsFrom_lookup_fixed (off : Z) (w : World) (n i : nat) :
  FixedOffset host off → (i < n)%nat →
  stampsFrom host w (clockReads w) n !! i
  = Some (isoFormat host (fallbackInstant w i)).
Proof.
  intros Hf Hi. unfold stampsFrom, fallbackInstant.
  rewrite list_lookup_fmap, lookup_seq_lt by done. simpl.
  by rewrite (shifted_fixed host off).
Qed.

End FallbackSeries.


(** With the clock standing still the same host does give timestamps exactly
    one hour apart. *)
Example frozen_clock_gives_exact_hours :
  oneHourApart ExampleHost.hanoi
    <$> forecastTimes ExampleHost.hanoi (ExampleHost.frozen Scenario.t0)
  = Some true.
Proof. vm_compute. reflexivity. Qed.

(** Where the zone offset changes during the 24 hours, two entries can name
    the same instant even with the clock standing still: half an hour before
    a spring-forward change, entries 1 and 2 coincide. *)
Example offset_change_repeats_an_instant :
  let host := ExampleHost.springForward (Scenario.t0 + 30 * DateModel.msPerMinute) in
  take 3 <$> forecastTimes host (ExampleHost.frozen Scenario.t0)
  = Some ["2024-11-02T03:04:05.123Z"; "2024-11-02T04:04:05.123Z";
          "2024-11-02T04:04:05.123Z"].
Proof. vm_compute. reflexivity. Qed.

(** ** The component *)

(** C3 fails on the code.  Once the air-quality query has settled without
    data, the render does bind the fallback snapshot as
    [effectiveAirQualityData], with [current.aqi] 85 and
    [current.aqiCategory.label] "Moderate"; but the failure is not absorbed:
    the same render goes on to read [airQualityData.current] on the live
    value and ends in a [TypeError]. *)
Theorem failed_fetch_binds_fallback_but_render_throws
    (host : Host) (st : HealthState) (w : World) :
  BoundedZone host →
  ClockInRange w 48 →
  data (airQuality st) = None →
  isLoading (airQuality st) = false →
  (∃ locals w',
     HealthBindings host st w = inr (locals, w')
     ∧ effectiveAirQualityData_ locals = fallbackAirQualityData_ locals
     ∧ cur_aqi (current (effectiveAirQualityData_ locals)) = Num.lit 85
     ∧ get "label" (cur_aqiCategory (current (effectiveAirQualityData_ locals)))
       = VStr "Moderate")
  ∧ Health host st w = inl (TypeError "current").
Proof.
  intros Hb Hc Hdata Hload.
  destruct (HealthBindings_run host st w Hb Hc)
    as (fbAir & fbForecast & w' & Hair & _ & Hrun).
  split.
  - eexists _, w'. split; [exact Hrun|].
    cbn [effectiveAirQualityData_ fallbackAirQualityData_].
    rewrite Hdata. unfold effectiveAirQualityData, orElse. simpl.
    rewrite (fallbackAirQualityData_run host w Hb
               (ClockInRange_fewer w 48 24 ltac:(lia) Hc)) in Hair.
    injection Hair as <-. split; [done|]. split; [done|].
    vm_compute. reflexivity.
  - unfold Health, mbind, M_bind at 1. rewrite Hrun.
    unfold mbind, M_bind at 1.
    unfold airQualityTab, currentAirQualityCard. rewrite Hload, Hdata.
    reflexivity.
Qed.

Lemma failed_fetch_binds_fallback_but_render_throws_witness :
  (∃ locals w',
     HealthBindings ExampleHost.hanoi Scenario.airQualityFailed
       (ExampleHost.ticking Scenario.t0) = inr (locals, w')
     ∧ cur_aqi (current (effectiveAirQualityData_ locals)) = Num.lit 85
     ∧ get "label" (cur_aqiCategory (current (effectiveAirQualityData_ locals)))
       = VStr "Moderate")
  ∧ Health ExampleHost.hanoi Scenario.airQualityFailed
      (ExampleHost.ticking Scenario.t0)
    = inl (TypeError "current").
Proof.
  destruct (failed_fetch_binds_fallback_but_render_throws ExampleHost.hanoi
              Scenario.airQualityFailed (ExampleHost.ticking Scenario.t0))
    as [(locals & w' & Hrun & _ & Haqi & Hlabel) Hthrow].
  - intros t b. vm_compute. discriminate.
  - intros j Hj. unfold ExampleHost.ticking, Scenario.t0. simpl.
    unfold DateModel.maxTime, DateModel.msPerDay. lia.
  - reflexivity.
  - reflexivity.
  - split; [|exact Hthrow].
    exists locals, w'. split; [exact Hrun|]. split; [exact Haqi|exact Hlabel].
Defined.

(** C1 fails on the code.  When the air-quality query has settled without
    data and is no longer loading, the first card of the air-quality tab
    reads [airQualityData.current] on the live value, not on
    [effectiveAirQualityData]; the read raises a [TypeError] and the render
    ends with it, although the bindings were made and the fallback snapshot
    was at hand. *)
Theorem render_reads_the_live_snapshot
    (host : Host) (st : HealthState) (w : World) :
  BoundedZone host →
  ClockInRange w 48 →
  data (airQuality st) = None →
  isLoading (airQuality st) = false →
  succeeds (HealthBindings host st w) = true
  ∧ currentAirQualityCard (airQuality st) = inl (TypeError "current")
  ∧ airQualityTab host st = inl (TypeError "current")
  ∧ Health host st w = inl (TypeError "current").
Proof.
  intros Hb Hc Hdata Hload.
  destruct (HealthBindings_run host st w Hb Hc)
    as (fbAir & fbForecast & w' & _ & _ & Hrun).
  assert (Hcard : currentAirQualityCard (airQuality st) = inl (TypeError "current")).
  { unfold currentAirQualityCard. rewrite Hload, Hdata. reflexivity. }
  assert (Htab : airQualityTab host st = inl (TypeError "current")).
  { unfold airQualityTab. rewrite Hcard. reflexivity. }
  split; [by rewrite Hrun|]. split; [exact Hcard|]. split; [exact Htab|].
  unfold Health, mbind, M_bind at 1. rewrite Hrun.
  unfold mbind, M_bind at 1. rewrite Htab. reflexivity.
Qed.

Lemma render_reads_the_live_snapshot_witness :
  Health ExampleHost.hanoi Scenario.airQualityFailed
    (ExampleHost.ticking Scenario.t0)
  = inl (TypeError "current").
Proof.
  apply (render_reads_the_live_snapshot ExampleHost.hanoi
           Scenario.airQualityFailed (ExampleHost.ticking Scenario.t0)).
  - intros t b. vm_compute. discriminate.
  - intros j Hj. unfold ExampleHost.ticking, Scenario.t0. simpl.
    unfold DateModel.maxTime, DateModel.msPerDay. lia.
  - reflexivity.
  - reflexivity.
Defined.

(** While the query is loading, or once it holds data, the same tab is
    evaluated without an exception. *)
Lemma airQualityTab_succeeds_otherwise (host : Host) (st : HealthState) :
  isLoading (airQuality st) = true ∨ is_Some (data (airQuality st)) →
  succeeds (airQualityTab host st) = true.
Proof.
  intros H. unfold airQualityTab, currentAirQualityCard, healthImpactCard.
  destruct (isLoading (airQuality st)); [reflexivity|].
  destruct H as [H|[d Hd]]; [discriminate|]. rewrite Hd. simpl.
  by destruct (from_option hasAllergies false (profileOf (user st))).
Qed.

(** Past the first panel, a render on a host that defines no global
    [aqiHistoricalLoading] ends at that identifier, which the component
    evaluates but never binds. *)
Lemma Health_ends_at_unbound_identifier
    (host : Host) (st : HealthState) (w : World) :
  BoundedZone host →
  ClockInRange w 48 →
  definesGlobal host "aqiHistoricalLoading" = false →
  succeeds (airQualityTab host st) = true →
  Health host st w = inl (ReferenceError "aqiHistoricalLoading").
Proof.
  intros Hb Hc Hg Htab.
  destruct (HealthBindings_run host st w Hb Hc)
    as (fbAir & fbForecast & w' & _ & _ & Hrun).
  unfold Health, mbind, M_bind at 1. rewrite Hrun.
  unfold mbind, M_bind at 1.
  destruct (airQualityTab host st) as [e|tab]; [discriminate Htab|].
  unfold liftExc at 1. unfold M_bind, liftExc, resolve. rewrite Hg.
  reflexivity.
Qed.

(** C4 fails on the code.  [fallbackPollenData] has the keys grass, tree,
    weed and mold, each holding a level and a category; the [PollenData]
    interface declares the single key [daily] with four parallel arrays.
    The literal shares no key with the interface, and its [daily] property
    is [undefined].  The recommendations fallback does hold every property
    the recommendations tab reads. *)
Theorem fallbackPollenData_is_not_PollenData :
  keys fallbackPollenData = ["grass"; "tree"; "weed"; "mold"]
  ∧ declared PollenData_t = ["daily"]
  ∧ (∀ k, mem k (keys fallbackPollenData) = true →
          mem k (declared PollenData_t) = false)
  ∧ sameShape fallbackPollenData PollenData_t = false
  ∧ get "daily" fallbackPollenData = VUndefined
  ∧ keys (get "grass" fallbackPollenData) = ["level"; "category"]
  ∧ keys fallbackHealthRecommendationsData = ["temperature"; "uv"; "airQuality"]
  ∧ Forall (λ path, getPath path fallbackHealthRecommendationsData ≠ VUndefined)
           recommendationReads.
Proof.
  split; [reflexivity|]. split; [reflexivity|]. split.
  - intros k. unfold mem. simpl. rewrite !orb_false_r.
    intros H.
    destruct (String.eqb_spec k "daily") as [->|]; [|reflexivity].
    vm_compute in H. discriminate.
  - split; [vm_compute; reflexivity|].
    split; [reflexivity|]. split; [reflexivity|]. split; [reflexivity|].
    unfold recommendationReads.
    repeat (apply Forall_cons; split; [vm_compute; discriminate|]).
    apply Forall_nil. done.
Qed.

(** * Further properties of the component *)

(** ** Query gating *)

(** X1. The air-quality query is enabled on every tab; each of the three gated
    queries is enabled exactly on its own tab, so no two of them are ever
    enabled together. *)
Theorem queries_gated_by_tab (activeTab : string) :
  enabled_airQuality activeTab = true
  ∧ (enabled_aqiForecast activeTab = true ↔ activeTab = "air-quality")
  ∧ (enabled_healthRecommendations activeTab = true
     ↔ activeTab = "recommendations")
  ∧ (enabled_pollen activeTab = true ↔ activeTab = "pollen")
  ∧ enabled_aqiForecast activeTab && enabled_healthRecommendations activeTab
    = false
  ∧ enabled_aqiForecast activeTab && enabled_pollen activeTab = false
  ∧ enabled_healthRecommendations activeTab && enabled_pollen activeTab = false.
Proof.
  unfold enabled_airQuality, enabled_aqiForecast,
    enabled_healthRecommendations, enabled_pollen.
  split; [reflexivity|].
  split; [apply String.eqb_eq|]. split; [apply String.eqb_eq|].
  split; [apply String.eqb_eq|].
  repeat split;
    destruct (String.eqb_spec activeTab "air-quality") as [E1|E1];
    destruct (String.eqb_spec activeTab "recommendations") as [E2|E2];
    destruct (String.eqb_spec activeTab "pollen") as [E3|E3];
    try reflexivity; congruence.
Qed.

(** ** The cards of the air-quality tab *)

Section Cards.

#[local] Instance spec_float_eq_dec : EqDecision spec_float.
Proof. solve_decision. Defined.

Lemma SFcompare_refl (a : spec_float) :
  a ≠ S754_nan → SFcompare a a = Some Eq.
Proof.
  destruct a as [s|s| |s m e]; intros H; simpl; try done.
  - by destruct s.
  - destruct s; rewrite Z.compare_refl, Pos.compare_cont_spec,
      Pos.compare_refl; reflexivity.
Qed.

Lemma SFcompare_is_Some (a b : spec_float) :
  a ≠ S754_nan → b ≠ S754_nan → is_Some (SFcompare a b).
Proof.
  destruct a as [sa|sa| |sa ma ea], b as [sb|sb| |sb mb eb];
    intros Ha Hb; simpl; try done; eexists; reflexivity.
Qed.

(** Away from NaN, [a > b] is the negation of [a <= b]. *)
Lemma gt_is_not_le (a b : number) :
  a ≠ Num.NaN → b ≠ Num.NaN → Num.gt a b = negb (Num.le a b).
Proof.
  intros Ha Hb. unfold Num.gt, Num.le, SFltb, SFleb.
  rewrite (SFcompare_swap a b).
  destruct (SFcompare_is_Some a b Ha Hb) as [c ->]. by destruct c.
Qed.

(** [Math.min] never exceeds its second argument. *)
Lemma min_le_right (a b : number) :
  b ≠ Num.NaN → Num.min a b = Num.NaN ∨ Num.le (Num.min a b) b = true.
Proof.
  intros Hb.
  destruct (decide (a = Num.NaN)) as [->|Ha]; [left; by destruct b|].
  right.
  assert (Hgen : Num.le (if SFltb b a then b else a) b = true).
  { destruct (SFltb b a) eqn:E.
    - unfold Num.le, SFleb. by rewrite (SFcompare_refl b Hb).
    - unfold Num.le, SFleb. unfold SFltb in E.
      rewrite (SFcompare_swap b a).
      destruct (SFcompare_is_Some b a Hb Ha) as [c Hc]. rewrite Hc in *.
      by destruct c. }
  destruct a as [sa|sa| |sa ma ea], b as [sb|sb| |sb mb eb];
    try done; try exact Hgen.
Qed.

(** [Math.min] against a finite bound returns its first argument when that
    is at most the bound. *)
Lemma min_keeps_smaller_finite (a : number) (s : bool) (m : positive) (e : Z) :
  Num.le a (S754_finite s m e) = true →
  Num.min a (S754_finite s m e) = a.
Proof.
  intros Hle.
  assert (Hlt : SFltb (S754_finite s m e) a = false).
  { unfold Num.le, SFleb in Hle. unfold SFltb.
    rewrite (SFcompare_swap a (S754_finite s m e)).
    destruct (SFcompare a (S754_finite s m e)) as [[]|]; simpl; congruence. }
  destruct a as [sa|sa| |sa ma ea]; try discriminate Hle;
    unfold Num.min; by rewrite Hlt.
Qed.

(** ... and the bound itself when the first argument is the bound or more. *)
Lemma min_caps_larger_finite (a : number) (s : bool) (m : positive) (e : Z) :
  Num.le (S754_finite s m e) a = true →
  Num.min a (S754_finite s m e) = S754_finite s m e.
Proof.
  unfold Num.le, SFleb, Num.min, SFltb.
  destruct a as [sa|sa| |sa ma ea]; simpl; try discriminate.
  - destruct s; simpl; [reflexivity|discriminate].
  - destruct sa; simpl; [discriminate|reflexivity].
  - destruct s, sa; simpl; try reflexivity; try discriminate;
      destruct (Z.compare_spec e ea) as [->|?|?]; simpl;
      try reflexivity; try discriminate;
      rewrite Pos.compare_cont_spec; simpl;
      destruct (Pos.compare_spec m ma) as [->|?|?]; simpl;
      try reflexivity; discriminate.
Qed.

Lemma min_keeps_smaller (a : number) :
  Num.le a (Num.lit 100) = true → Num.min a (Num.lit 100) = a.
Proof. rewrite lit_100. apply min_keeps_smaller_finite. Qed.

Lemma min_caps_larger (a : number) :
  Num.le (Num.lit 100) a = true → Num.min a (Num.lit 100) = Num.lit 100.
Proof. rewrite lit_100. apply min_caps_larger_finite. Qed.

(** The tier of a number, read off the comparisons the classifier makes. *)
Lemma getAQICategory_cases (x : number) :
  (Num.le x (Num.lit 50) = true ∧ getAQICategory x = Good)
  ∨ (Num.le x (Num.lit 50) = false ∧ Num.le x (Num.lit 100) = true
     ∧ getAQICategory x = Moderate)
  ∨ (Num.le x (Num.lit 50) = false ∧ Num.le x (Num.lit 100) = false
     ∧ Num.le x (Num.lit 150) = true ∧ getAQICategory x = UnhealthySensitive)
  ∨ (Num.le x (Num.lit 50) = false ∧ Num.le x (Num.lit 100) = false
     ∧ Num.le x (Num.lit 150) = false
     ∧ (getAQICategory x = Unhealthy ∨ getAQICategory x = VeryUnhealthy
        ∨ getAQICategory x = Hazardous)).
Proof.
  unfold getAQICategory.
  destruct (Num.le x (Num.lit 50)); [by left|].
  destruct (Num.le x (Num.lit 100)); [right; by left|].
  destruct (Num.le x (Num.lit 150)); [right; right; by left|].
  right; right; right. repeat split.
  destruct (Num.le x (Num.lit 200)); [by left|].
  destruct (Num.le x (Num.lit 300)); [right; by left|right; by right].
Qed.

(** X4. The sentence for the general population follows the tier shown in the
    badge: one sentence each for Good, Moderate and Unhealthy for Sensitive
    Groups, and a single sentence for the three tiers above (which is also
    what NaN gets). *)
Theorem generalPopulationText_follows_tier (x : number) :
  (getAQICategory x = Good ↔
     generalPopulationText x
     = "Air quality is considered satisfactory, and air pollution poses little or no risk.")
  ∧ (getAQICategory x = Moderate ↔
       generalPopulationText x
       = "Air quality is acceptable; however, there may be a moderate health concern for a very small number of people.")
  ∧ (getAQICategory x = UnhealthySensitive ↔
       generalPopulationText x
       = "Members of sensitive groups may experience health effects. The general public is not likely to be affected.")
  ∧ (getAQICategory x = Unhealthy ∨ getAQICategory x = VeryUnhealthy
     ∨ getAQICategory x = Hazardous ↔
       generalPopulationText x
       = "Everyone may begin to experience health effects; members of sensitive groups may experience more serious health effects.")
  ∧ generalPopulationText Num.NaN
    = "Everyone may begin to experience health effects; members of sensitive groups may experience more serious health effects.".
Proof.
  unfold generalPopulationText.
  destruct (getAQICategory_cases x)
    as [(E1 & ->) | [(E1 & E2 & ->) | [(E1 & E2 & E3 & ->)
       | (E1 & E2 & E3 & Hc)]]];
    rewrite ?E1, ?E2, ?E3.
  1-3: repeat split; intros H; try reflexivity; try discriminate H;
       try (destruct H as [H|[H|H]]; discriminate H).
  repeat split; intros H; try reflexivity; try discriminate H;
    try exact Hc;
    destruct Hc as [Hc|[Hc|Hc]]; rewrite Hc in H; discriminate H.
Qed.


Lemma getAQICategory_in_tiers (x : number) : In (getAQICategory x) tiers.
Proof.
  destruct (getAQICategory_cases x)
    as [(_ & ->) | [(_ & _ & ->) | [(_ & _ & _ & ->) | (_ & _ & _ & Hc)]]];
    [| | |destruct Hc as [->|[->| ->]]]; simpl; tauto.
Qed.

Lemma above_50_is_not_Good (x : number) :
  Num.gt x (Num.lit 50) = true → getAQICategory x ≠ Good.
Proof.
  intros Hgt Hgood. apply gt_not_le in Hgt.
  destruct (getAQICategory_cases x)
    as [(E & _) | [(_ & _ & Hc) | [(_ & _ & _ & Hc) | (_ & _ & _ & Hc)]]].
  - congruence.
  - rewrite Hc in Hgood. discriminate Hgood.
  - rewrite Hc in Hgood. discriminate Hgood.
  - destruct Hc as [Hc|[Hc|Hc]]; rewrite Hc in Hgood; discriminate Hgood.
Qed.

(** The replacement made for the panel class, tier by tier. *)
Lemma panel_class_of_tier (c : AqiCategory) :
  In c tiers →
  ∃ bg txt, color c = bg +:+ " " +:+ txt
    ∧ "p-4 rounded-lg "
        +:+ replaceFirst "text-" "text-opacity-90 text-" (color c)
      = "p-4 rounded-lg " +:+ bg +:+ " text-opacity-90 " +:+ txt.
Proof.
  simpl. intros [<-|[<-|[<-|[<-|[<-|[<-|[]]]]]]].
  - by exists "bg-green-100", "text-green-800".
  - by exists "bg-yellow-100", "text-yellow-800".
  - by exists "bg-orange-100", "text-orange-800".
  - by exists "bg-red-100", "text-red-800".
  - by exists "bg-purple-100", "text-purple-800".
  - by exists "bg-rose-100", "text-rose-800".
Qed.

(** X6. With data present and the query settled, the second card is shown: its
    panel class keeps both classes of the tier's colour and puts
    [text-opacity-90] between them, the respiratory alert follows the
    profile flag alone, and the allergy alert appears only for a profile
    with allergies and a tier other than Good; for a reading that is not NaN
    it appears exactly then. *)
Theorem healthImpactCard_alerts
    (u : option User) (q : QueryResult AirQualityData) (d : AirQualityData) :
  data q = Some d →
  isLoading q = false →
  let x := cur_aqi (current d) in
  let allergies := from_option hasAllergies false (profileOf u) in
  ∃ v, healthImpactCard u q = inr (Shown _ v)
    ∧ generalText v = generalPopulationText x
    ∧ (∃ bg txt, color (getAQICategory x) = bg +:+ " " +:+ txt
         ∧ panelClass v
           = "p-4 rounded-lg " +:+ bg +:+ " text-opacity-90 " +:+ txt)
    ∧ respiratoryAlert v = from_option hasRespiratoryConditions false (profileOf u)
    ∧ (allergyAlert v = true → allergies = true ∧ getAQICategory x ≠ Good)
    ∧ (x ≠ Num.NaN →
         allergyAlert v = allergies && negb (Num.le x (Num.lit 50))).
Proof.
  intros Hd Hl x allergies. unfold healthImpactCard. rewrite Hl, Hd. simpl.
  fold x. fold allergies.
  destruct allergies eqn:Ea; simpl; eexists; (split; [reflexivity|]); simpl;
    (split; [reflexivity|]);
    (split; [|split; [reflexivity|split]]).
  - apply panel_class_of_tier, getAQICategory_in_tiers.
  - intros Hgt. split; [done|].
    exact (above_50_is_not_Good x Hgt).
  - intros Hx.
    exact (gt_is_not_le x (Num.lit 50) Hx ltac:(discriminate)).
  - apply panel_class_of_tier, getAQICategory_in_tiers.
  - discriminate.
  - intros _. reflexivity.
Qed.

Lemma healthImpactCard_alerts_witness :
  ∃ v, healthImpactCard (user Scenario2.airQualityLoaded)
         (airQuality Scenario2.airQualityLoaded) = inr (Shown _ v)
    ∧ panelClass v = "p-4 rounded-lg bg-orange-100 text-opacity-90 text-orange-800"
    ∧ respiratoryAlert v = true
    ∧ allergyAlert v = true.
Proof.
  destruct (healthImpactCard_alerts (user Scenario2.airQualityLoaded)
              (airQuality Scenario2.airQualityLoaded) _ eq_refl eq_refl)
    as (v & Hv & _ & _ & Hr & _ & Ha).
  exists v. split; [exact Hv|].
  split; [vm_compute in Hv; injection Hv as <-; reflexivity|].
  split; [rewrite Hr; reflexivity|].
  rewrite Ha; [vm_compute; reflexivity|discriminate].
Defined.

End Cards.

(** ** The render *)

Section Render.
Variable host : Host.

(** X8. The component evaluates [aqiHistoricalLoading] on every render and
    binds it nowhere.  On a host whose global object does not define it, no
    render completes, in any state and world; one that gets through the
    bindings and the first panel ends in the [ReferenceError]. *)
Theorem Health_never_completes (st : HealthState) (w : World) :
  definesGlobal host "aqiHistoricalLoading" = false →
  succeeds (Health host st w) = false
  ∧ (BoundedZone host → ClockInRange w 48 →
     succeeds (airQualityTab host st) = true →
     Health host st w = inl (ReferenceError "aqiHistoricalLoading")).
Proof.
  intros Hg. split.
  - unfold Health, mbind, M_bind at 1.
    destruct (HealthBindings host st w) as [e|[locals w1]]; [reflexivity|].
    unfold mbind, M_bind at 1, liftExc at 1.
    destruct (airQualityTab host st) as [e|tab]; [reflexivity|].
    unfold M_bind, liftExc, resolve. rewrite Hg. reflexivity.
  - intros Hb Hc Hs. by apply Health_ends_at_unbound_identifier.
Qed.

End Render.

Lemma Health_never_completes_witness :
  Health ExampleHost.hanoi Scenario2.airQualityLoaded
    (ExampleHost.ticking Scenario.t0)
  = inl (ReferenceError "aqiHistoricalLoading").
Proof.
  destruct (Health_never_completes ExampleHost.hanoi
              Scenario2.airQualityLoaded (ExampleHost.ticking Scenario.t0)
              eq_refl) as [_ H].
  apply H.
  - intros t b. vm_compute. discriminate.
  - intros j Hj. unfold ExampleHost.ticking, Scenario.t0. simpl.
    unfold DateModel.maxTime, DateModel.msPerDay. lia.
  - vm_compute. reflexivity.
Defined.

(** ** The fallback generators within a render *)

Section Fallbacks.
Variable host : Host.

Lemma fallbackTimestamp_fails (i : nat) (w : World) :
  DateModel.maxTime < Z.abs (shifted host (clock w (clockReads w)) (Z.of_nat i)) →
  fallbackTimestamp host i w = inl (RangeError "Invalid time value").
Proof.
  intros Hr. unfold fallbackTimestamp, mbind, M_bind, newDate.
  rewrite setHours_getHours_shift. unfold DateModel.TimeClip.
  rewrite bool_decide_eq_false_2 by lia. reflexivity.
Qed.

Lemma arrayFromAt_timestamps_fail (n i j : nat) (w : World) :
  (j < n)%nat →
  DateModel.maxTime
  < Z.abs (shifted host (clock w (clockReads w + j)) (Z.of_nat (i + j))) →
  arrayFromAt (fallbackTimestamp host) i n w
  = inl (RangeError "Invalid time value").
Proof.
  revert i j w. induction n as [|n IH]; intros i j w Hj Hout; [lia|].
  cbn [arrayFromAt]. unfold mbind, M_bind at 1.
  destruct (decide (Z.abs (shifted host (clock w (clockReads w)) (Z.of_nat i))
                    ≤ DateModel.maxTime)) as [Hin|Hno].
  - rewrite (fallbackTimestamp_run host i w Hin).
    destruct j as [|j].
    { rewrite !Nat.add_0_r in Hout. lia. }
    unfold M_bind at 1. rewrite (IH (S i) j); [reflexivity|lia|].
    simpl.
    replace (clockReads w + 1 + j)%nat with (clockReads w + S j)%nat by lia.
    by replace (S (i + j)) with (i + S j)%nat by lia.
  - rewrite fallbackTimestamp_fails by lia. reflexivity.
Qed.

Lemma Array_from_timestamps_in_range (w : World) :
  StampsInRange host w →
  Array_from 24 (fallbackTimestamp host) w
  = inr (stampsFrom host w (clockReads w) 24, afterClockReads 24 w).
Proof.
  intros Hr. unfold Array_from. by rewrite arrayFromAt_timestamps.
Qed.

Lemma Array_from_timestamps_out_of_range (w : World) (j : nat) :
  (j < 24)%nat →
  DateModel.maxTime
  < Z.abs (shifted host (clock w (clockReads w + j)) (Z.of_nat j)) →
  Array_from 24 (fallbackTimestamp host) w
  = inl (RangeError "Invalid time value").
Proof.
  intros Hj Hout. unfold Array_from.
  by apply (arrayFromAt_timestamps_fail 24 0 j).
Qed.

(** X11. The two generators fail in one way only: an entry of the [time] array
    falls outside the range of valid dates, and formatting it raises a
    [RangeError].  That ends the bindings and the render as well.  With all
    24 instants in range both generators return. *)
Theorem fallback_generators_fail_only_out_of_range (w : World) :
  (succeeds (fallbackAirQualityData host w) = true ↔ StampsInRange host w)
  ∧ (succeeds (fallbackAqiForecastData host w) = true ↔ StampsInRange host w)
  ∧ (∀ j, (j < 24)%nat →
       DateModel.maxTime
       < Z.abs (shifted host (clock w (clockReads w + j)) (Z.of_nat j)) →
       fallbackAirQualityData host w = inl (RangeError "Invalid time value")
       ∧ fallbackAqiForecastData host w = inl (RangeError "Invalid time value")
       ∧ ∀ st, HealthBindings host st w = inl (RangeError "Invalid time value")
               ∧ Health host st w = inl (RangeError "Invalid time value")).
Proof.
  assert (Hfail : ∀ j, (j < 24)%nat →
            DateModel.maxTime
            < Z.abs (shifted host (clock w (clockReads w + j)) (Z.of_nat j)) →
            fallbackAirQualityData host w = inl (RangeError "Invalid time value")
            ∧ fallbackAqiForecastData host w
              = inl (RangeError "Invalid time value")).
  { intros j Hj Hout. split.
    - unfold fallbackAirQualityData, mbind, M_bind at 1.
      by rewrite (Array_from_timestamps_out_of_range w j).
    - unfold fallbackAqiForecastData, mbind, M_bind at 1.
      by rewrite (Array_from_timestamps_out_of_range w j). }
  assert (Hall : ∀ b : bool,
            (b = true → (∀ j, (j < 24)%nat →
               DateModel.maxTime
               < Z.abs (shifted host (clock w (clockReads w + j)) (Z.of_nat j))
               → False)) → b = true → StampsInRange host w).
  { intros b Hb Hs j Hj.
    destruct (decide (Z.abs (shifted host (clock w (clockReads w + j))
                               (Z.of_nat j)) ≤ DateModel.maxTime)); [done|].
    exfalso. apply (Hb Hs j Hj). lia. }
  split; [|split].
  - split.
    + apply Hall. intros Hs j Hj Hout.
      destruct (Hfail j Hj Hout) as [Ha _]. rewrite Ha in Hs. discriminate Hs.
    + intros Hr. unfold fallbackAirQualityData, mbind, M_bind.
      rewrite (Array_from_timestamps_in_range w Hr).
      unfold Array_from. rewrite !arrayFromAt_jitter. reflexivity.
  - split.
    + apply Hall. intros Hs j Hj Hout.
      destruct (Hfail j Hj Hout) as [_ Hf]. rewrite Hf in Hs. discriminate Hs.
    + intros Hr. unfold fallbackAqiForecastData, mbind, M_bind.
      rewrite (Array_from_timestamps_in_range w Hr).
      unfold Array_from. rewrite arrayFromAt_jitter. reflexivity.
  - intros j Hj Hout. destruct (Hfail j Hj Hout) as [Ha Hf].
    split; [exact Ha|]. split; [exact Hf|]. intros st.
    assert (Hb : HealthBindings host st w
                 = inl (RangeError "Invalid time value")).
    { unfold HealthBindings, mbind, M_bind at 1. by rewrite Ha. }
    split; [exact Hb|].
    unfold Health, mbind, M_bind at 1. by rewrite Hb.
Qed.

End Fallbacks.

(** One hour before the end of the date range, on UTC: entry 2 would lie
    one hour past the end. *)
Lemma fallback_generators_fail_only_out_of_range_witness :
  fallbackAqiForecastData ExampleHost.utc Scenario2.endOfTime
  = inl (RangeError "Invalid time value")
  ∧ Health ExampleHost.utc Scenario.airQualityFailed Scenario2.endOfTime
    = inl (RangeError "Invalid time value").
Proof.
  destruct (fallback_generators_fail_only_out_of_range ExampleHost.utc
              Scenario2.endOfTime) as (_ & _ & H).
  destruct (H 2%nat ltac:(lia) ltac:(vm_compute; reflexivity))
    as (_ & Hf & Hst).
  split; [exact Hf|]. apply Hst.
Defined.

(** ** The shape of the fallback series in every zone *)

Section SeriesShape.
Variable host : Host.

Lemma stampsFrom_lookup (w : World) (k0 n i : nat) :
  (i < n)%nat →
  stampsFrom host w k0 n !! i
  = Some (isoFormat host (shifted host (clock w (k0 + i)) (Z.of_nat i))).
Proof.
  intros Hi. unfold stampsFrom.
  by rewrite list_lookup_fmap, lookup_seq_lt.
Qed.

Lemma timestamps_returned_are_in_range (w : World) (l : list string) (w' : World) :
  Array_from 24 (fallbackTimestamp host) w = inr (l, w') →
  StampsInRange host w.
Proof.
  intros Hrun j Hj.
  destruct (decide (Z.abs (shifted host (clock w (clockReads w + j))
                             (Z.of_nat j)) ≤ DateModel.maxTime)); [done|].
  rewrite (Array_from_timestamps_out_of_range host w j Hj) in Hrun by lia.
  discriminate Hrun.
Qed.

Lemma fallbackAqiForecastData_run_in_range (w : World) :
  StampsInRange host w →
  fallbackAqiForecastData host w
  = inr ({| hourly := Some {|
              fc_time := stampsFrom host w (clockReads w) 24;
              european_aqi := jittersFrom host w 75 20 (randomDraws w) 24;
              fc_pm2_5 := None;
              fc_pm10 := None |} |},
         afterRandomDraws 24 (afterClockReads 24 w)).
Proof.
  intros Hr. unfold fallbackAqiForecastData, mbind, M_bind.
  rewrite (Array_from_timestamps_in_range host w Hr).
  unfold Array_from. rewrite arrayFromAt_jitter. reflexivity.
Qed.

Lemma fallbackAirQualityData_run_in_range (w : World) :
  StampsInRange host w →
  ∃ cur w',
    fallbackAirQualityData host w
    = inr ({| current := cur;
              aq_hourly := Some {|
                aq_time := stampsFrom host w (clockReads w) 24;
                aq_pm2_5 := jittersFrom host w 20 10 (randomDraws w) 24;
                aq_pm10 := jittersFrom host w 35 15 (randomDraws w + 24) 24;
                aq_aqi := jittersFrom host w 75 20 (randomDraws w + 24 + 24) 24
              |} |}, w').
Proof.
  intros Hr. unfold fallbackAirQualityData, mbind, M_bind.
  rewrite (Array_from_timestamps_in_range host w Hr).
  unfold Array_from. rewrite !arrayFromAt_jitter.
  eexists _, _. reflexivity.
Qed.

Lemma forecast_returned_is_in_range (w : World) (fc : AqiForecastData) (w' : World) :
  fallbackAqiForecastData host w = inr (fc, w') → StampsInRange host w.
Proof.
  unfold fallbackAqiForecastData, mbind, M_bind at 1. intros Hrun.
  destruct (Array_from 24 (fallbackTimestamp host) w) as [e|[l w1]] eqn:E;
    [discriminate Hrun|].
  by apply (timestamps_returned_are_in_range w l w1).
Qed.

Lemma airQuality_returned_is_in_range (w : World) (air : AirQualityData) (w' : World) :
  fallbackAirQualityData host w = inr (air, w') → StampsInRange host w.
Proof.
  unfold fallbackAirQualityData, mbind, M_bind at 1. intros Hrun.
  destruct (Array_from 24 (fallbackTimestamp host) w) as [e|[l w1]] eqn:E;
    [discriminate Hrun|].
  by apply (timestamps_returned_are_in_range w l w1).
Qed.

Lemma bounded_clock_is_in_range (w : World) :
  BoundedZone host → ClockInRange w 24 → StampsInRange host w.
Proof.
  intros Hb Hc j Hj. apply shifted_in_range; [done|by apply Hc|lia].
Qed.

End SeriesShape.



(** Where the zone offset changes, the first entry need not be the current
    instant: half an hour after a fall-back change the local time occurs
    twice, and the first entry names the earlier occurrence, one hour before
    the clock reading. *)
Example offset_change_moves_the_first_entry :
  let host := Scenario2.fallBack (Scenario.t0 - 30 * DateModel.msPerMinute) in
  take 2 <$> forecastTimes host (ExampleHost.frozen Scenario.t0)
  = Some ["2024-11-02T02:04:05.123Z"; "2024-11-02T04:04:05.123Z"].
Proof. vm_compute. reflexivity. Qed.

Section Bindings.
Variable host : Host.

(** The points the forecast fallback would give the chart. *)
Lemma fallback_forecast_points (w : World) :
  let fb := {| hourly := Some {|
                 fc_time := stampsFrom host w (clockReads w) 24;
                 european_aqi := jittersFrom host w 75 20 (randomDraws w) 24;
                 fc_pm2_5 := None;
                 fc_pm10 := None |} |} in
  length (formatAqiForecastData host (Some fb)) = 24%nat
  ∧ Forall (λ pt, is_Some (aqi pt) ∧ pm2_5 pt = None ∧ pm10 pt = None)
           (formatAqiForecastData host (Some fb)).
Proof.
  intros fb.
  assert (Hlen : length (formatAqiForecastData host (Some fb)) = 24%nat).
  { unfold fb. rewrite formatAqiForecastData_length.
    cbn [fc_time]. by rewrite stampsFrom_length. }
  split; [exact Hlen|].
  apply Forall_lookup. intros i pt Hpt.
  assert (Hi : (i < 24)%nat).
  { rewrite <- Hlen. by apply lookup_lt_Some with pt. }
  destruct (lookup_lt_is_Some_2 (stampsFrom host w (clockReads w) 24) i)
    as [time Ht]; [by rewrite stampsFrom_length|].
  unfold fb in Hpt.
  rewrite (formatAqiForecastData_lookup host
             (mkAqiForecastHourly (stampsFrom host w (clockReads w) 24)
                (jittersFrom host w 75 20 (randomDraws w) 24) None None)
             i time Hi Ht) in Hpt.
  injection Hpt as <-. simpl. split; [|done].
  apply lookup_lt_is_Some_2. by rewrite jittersFrom_length.
Qed.

(** X9. When the forecast query has settled without data, the forecast card
    hands the chart an empty series, although the same render has bound a
    fallback forecast that would give 24 points, each with an [aqi] value:
    the card reads the live value, not the effective one. *)
Theorem forecast_fallback_is_never_charted (st : HealthState) (w : World) :
  BoundedZone host →
  ClockInRange w 48 →
  data (aqiForecast st) = None →
  isLoading (aqiForecast st) = false →
  forecastChartCard host (aqiForecast st) = Shown _ []
  ∧ ∃ locals w',
      HealthBindings host st w = inr (locals, w')
      ∧ effectiveAqiForecastData_ locals = fallbackAqiForecastData_ locals
      ∧ length (formatAqiForecastData host
                  (Some (effectiveAqiForecastData_ locals))) = 24%nat
      ∧ Forall (λ pt, is_Some (aqi pt) ∧ pm2_5 pt = None ∧ pm10 pt = None)
               (formatAqiForecastData host
                  (Some (effectiveAqiForecastData_ locals))).
Proof.
  intros Hb Hc Hd Hl. split.
  { unfold forecastChartCard. by rewrite Hl, Hd. }
  destruct (HealthBindings_run host st w Hb Hc)
    as (fbAir & fbForecast & w' & _ & Hfc & Hrun).
  rewrite (fallbackAqiForecastData_run host _ Hb
             (ClockInRange_later w 24 24 72 Hc)) in Hfc.
  injection Hfc as <- <-.
  eexists _, _. split; [exact Hrun|].
  cbn [effectiveAqiForecastData_ fallbackAqiForecastData_].
  rewrite Hd. unfold orElse. cbn [default].
  split; [reflexivity|]. apply fallback_forecast_points.
Qed.

(** X10. Every render builds both fallbacks afresh, in every state: 48 readings
    of the clock and 96 random draws are consumed whether or not live data
    is present, and the fallbacks built do not depend on the state.  A live
    air-quality or forecast object takes the place of its fallback; a
    recommendations payload does so only if it is truthy; the pollen fallback
    stands in when there is no pollen data. *)
Theorem fallbacks_rebuilt_on_every_render (st1 st2 : HealthState) (w : World) :
  BoundedZone host →
  ClockInRange w 48 →
  ∃ l1 l2 w',
    HealthBindings host st1 w = inr (l1, w')
    ∧ HealthBindings host st2 w = inr (l2, w')
    ∧ fallbackAirQualityData_ l1 = fallbackAirQualityData_ l2
    ∧ fallbackAqiForecastData_ l1 = fallbackAqiForecastData_ l2
    ∧ clockReads w' = (clockReads w + 48)%nat
    ∧ randomDraws w' = (randomDraws w + 96)%nat
    ∧ (∀ d, data (airQuality st1) = Some d → effectiveAirQualityData_ l1 = d)
    ∧ (∀ d, data (aqiForecast st1) = Some d → effectiveAqiForecastData_ l1 = d)
    ∧ (∀ v, data (healthRecommendations st1) = Some v →
         effectiveHealthRecommendationsData_ l1
         = if truthy v then v else fallbackHealthRecommendationsData)
    ∧ (data (pollen st1) = None →
         effectivePollenData_ l1 = inr fallbackPollenData).
Proof.
  intros Hb Hc.
  destruct (HealthBindings_run host st1 w Hb Hc)
    as (fbAir & fbForecast & w' & Hair & Hfc & Hrun1).
  destruct (HealthBindings_run host st2 w Hb Hc)
    as (fbAir2 & fbForecast2 & w2 & Hair2 & Hfc2 & Hrun2).
  rewrite Hair in Hair2. injection Hair2 as <-.
  rewrite Hfc in Hfc2. injection Hfc2 as <- <-.
  rewrite (fallbackAqiForecastData_run host _ Hb
             (ClockInRange_later w 24 24 72 Hc)) in Hfc.
  injection Hfc as _ <-.
  eexists _, _, _. split; [exact Hrun1|]. split; [exact Hrun2|].
  cbn [fallbackAirQualityData_ fallbackAqiForecastData_
       effectiveAirQualityData_ effectiveAqiForecastData_
       effectiveHealthRecommendationsData_ effectivePollenData_].
  split; [reflexivity|]. split; [reflexivity|].
  split; [simpl; lia|]. split; [simpl; lia|].
  split; [by intros d ->|]. split; [by intros d ->|].
  split; [by intros v ->|]. by intros ->.
Qed.

End Bindings.

Lemma forecast_fallback_is_never_charted_witness :
  forecastChartCard ExampleHost.hanoi (aqiForecast Scenario.airQualityFailed)
  = Shown _ []
  ∧ ∃ locals w',
      HealthBindings ExampleHost.hanoi Scenario.airQualityFailed
        (ExampleHost.ticking Scenario.t0) = inr (locals, w')
      ∧ length (formatAqiForecastData ExampleHost.hanoi
                  (Some (effectiveAqiForecastData_ locals))) = 24%nat.
Proof.
  destruct (forecast_fallback_is_never_charted ExampleHost.hanoi
              Scenario.airQualityFailed (ExampleHost.ticking Scenario.t0))
    as (Hcard & locals & w' & Hrun & _ & Hlen & _).
  - intros t b. vm_compute. discriminate.
  - intros j Hj. unfold ExampleHost.ticking, Scenario.t0. simpl.
    unfold DateModel.maxTime, DateModel.msPerDay. lia.
  - reflexivity.
  - reflexivity.
  - split; [exact Hcard|]. exists locals, w'. split; [exact Hrun|exact Hlen].
Defined.

Lemma fallbacks_rebuilt_on_every_render_witness :
  ∃ l1 l2 w',
    HealthBindings ExampleHost.hanoi Scenario.airQualityFailed
      (ExampleHost.ticking Scenario.t0) = inr (l1, w')
    ∧ HealthBindings ExampleHost.hanoi Scenario2.airQualityLoaded
        (ExampleHost.ticking Scenario.t0) = inr (l2, w')
    ∧ fallbackAirQualityData_ l1 = fallbackAirQualityData_ l2
    ∧ clockReads w' = 48%nat
    ∧ randomDraws w' = 96%nat.
Proof.
  destruct (fallbacks_rebuilt_on_every_render ExampleHost.hanoi
              Scenario.airQualityFailed Scenario2.airQualityLoaded
              (ExampleHost.ticking Scenario.t0))
    as (l1 & l2 & w' & H1 & H2 & Heq & _ & Hc & Hr & _).
  - intros t b. vm_compute. discriminate.
  - intros j Hj. unfold ExampleHost.ticking, Scenario.t0. simpl.
    unfold DateModel.maxTime, DateModel.msPerDay. lia.
  - exists l1, l2, w'.
    split; [exact H1|]. split; [exact H2|]. split; [exact Heq|].
    split; [exact Hc|exact Hr].
Defined.

(** ** The shapers on inputs outside the expected shape *)

Section ShaperEdges.
Variable host : Host.

(** X12. [formatAqiForecastData] looks at the first 24 entries of every series
    and at nothing else: cutting all series to 24 entries leaves the output
    unchanged.  No point of it carries a pollen field. *)
Theorem formatAqiForecastData_reads_first_24 (h : AqiForecastHourly) :
  formatAqiForecastData host (Some (mkAqiForecastData (Some h)))
  = formatAqiForecastData host (Some (mkAqiForecastData (Some (truncate24 h))))
  ∧ Forall (λ pt, grass pt = None ∧ tree pt = None ∧ weed pt = None)
           (formatAqiForecastData host (Some (mkAqiForecastData (Some h)))).
Proof.
  split.
  - cbn [formatAqiForecastData hourly truncate24 fc_time european_aqi
         fc_pm2_5 fc_pm10].
    rewrite take_take, Nat.min_id.
    apply imap_ext. intros i time Hi.
    assert (Hlt : (i < 24)%nat).
    { apply lookup_lt_Some in Hi. rewrite length_take in Hi. lia. }
    rewrite (lookup_take_lt (european_aqi h)) by done.
    destruct (fc_pm2_5 h) as [a|], (fc_pm10 h) as [b|]; simpl;
      rewrite ?(lookup_take_lt a), ?(lookup_take_lt b) by done; reflexivity.
  - apply Forall_lookup. intros i pt Hpt. simpl in Hpt.
    rewrite list_lookup_imap in Hpt.
    destruct (take 24 (fc_time h) !! i); [|discriminate Hpt].
    injection Hpt as <-. done.
Qed.

(** X13. [formatPollenData] looks at as many entries of each value series as
    there are dates: surplus values are ignored.  No point of it carries a
    forecast field. *)
Theorem formatPollenData_ignores_surplus_values (dl : PollenDaily) :
  formatPollenData host (Some (mkPollenData (Some dl)))
  = formatPollenData host (Some (mkPollenData (Some (truncateToTime dl))))
  ∧ Forall (λ pt, aqi pt = None ∧ pm2_5 pt = None ∧ pm10 pt = None)
           (formatPollenData host (Some (mkPollenData (Some dl)))).
Proof.
  split.
  - cbn [formatPollenData daily truncateToTime daily_time grass_pollen
         tree_pollen weed_pollen].
    apply imap_ext. intros i date Hi.
    apply lookup_lt_Some in Hi.
    by rewrite !lookup_take_lt.
  - apply Forall_lookup. intros i pt Hpt. simpl in Hpt.
    rewrite list_lookup_imap in Hpt.
    destruct (daily_time dl !! i); [|discriminate Hpt].
    injection Hpt as <-. done.
Qed.

Lemma weekdayShort_of_valid (t : Z) :
  DateModel.weekdayShort host (Some t)
  = dayName (DateModel.WeekDay (DateModel.LocalTime host t))
  ∧ In (DateModel.weekdayShort host (Some t)) DateModel.weekdayNames.
Proof.
  split; [reflexivity|]. simpl. unfold DateModel.weekdayNames.
  pose proof (WeekDay_range (DateModel.LocalTime host t)) as Hr.
  destruct (Z.to_nat (DateModel.WeekDay (DateModel.LocalTime host t)))
    as [|[|[|[|[|[|[|n]]]]]]] eqn:E; simpl; try tauto.
  lia.
Qed.

(** X14. A timestamp the host cannot read does not cost the point: the forecast
    point is kept with [NaN] as its name and its values in place, the pollen
    point is kept under the name "Invalid Date".  A pollen point is
    otherwise named by one of the seven weekday abbreviations. *)
Theorem unreadable_timestamps_keep_their_point :
  (∀ (h : AqiForecastHourly) (i : nat) (time : string),
     (i < 24)%nat → fc_time h !! i = Some time →
     DateModel.newDateOf host time = None →
     ∃ pt, formatAqiForecastData host (Some (mkAqiForecastData (Some h))) !! i
           = Some pt
       ∧ name pt = NameNumber Num.NaN
       ∧ aqi pt = european_aqi h !! i)
  ∧ (∀ (dl : PollenDaily) (i : nat) (date : string),
       daily_time dl !! i = Some date →
       ∃ pt label, formatPollenData host (Some (mkPollenData (Some dl))) !! i
                   = Some pt
         ∧ name pt = NameString label
         ∧ grass pt = grass_pollen dl !! i
         ∧ (DateModel.newDateOf host date = None → label = "Invalid Date")
         ∧ (is_Some (DateModel.newDateOf host date) →
              In label DateModel.weekdayNames)).
Proof.
  split.
  - intros h i time Hi Ht Hbad. eexists.
    split; [by apply formatAqiForecastData_lookup|].
    simpl. by rewrite Hbad.
  - intros dl i date Hd. eexists _, _.
    split; [by apply formatPollenData_lookup|].
    split; [reflexivity|]. split; [reflexivity|]. split.
    + by intros ->.
    + intros [t ->]. apply weekdayShort_of_valid.
Qed.

Lemma WeekDay_east (t off : Z) :
  t `mod` DateModel.msPerDay = 0 → 0 ≤ off < DateModel.msPerDay →
  DateModel.WeekDay (t + off) = DateModel.WeekDay t.
Proof.
  unfold DateModel.WeekDay, DateModel.Day, DateModel.msPerDay.
  intros Hm Ho. f_equal. f_equal.
  Z.div_mod_to_equations. lia.
Qed.

Lemma WeekDay_west (t off : Z) :
  t `mod` DateModel.msPerDay = 0 → - DateModel.msPerDay ≤ off < 0 →
  DateModel.WeekDay (t + off) = (DateModel.WeekDay t + 6) `mod` 7.
Proof.
  unfold DateModel.WeekDay, DateModel.Day, DateModel.msPerDay.
  intros Hm Ho.
  assert (Hd : (t + off) `div` 86400000 = t `div` 86400000 - 1)
    by (Z.div_mod_to_equations; lia).
  rewrite Hd. Z.div_mod_to_equations. lia.
Qed.


End ShaperEdges.

Lemma unreadable_timestamps_keep_their_point_witness :
  ∃ pt, formatAqiForecastData ExampleHost.hanoi
          (Some (mkAqiForecastData (Some Scenario2.forecastBadStamp))) !! 2%nat
        = Some pt
    ∧ name pt = NameNumber Num.NaN
    ∧ aqi pt = Some (Num.lit 62).
Proof.
  destruct (unreadable_timestamps_keep_their_point ExampleHost.hanoi) as [H _].
  destruct (H Scenario2.forecastBadStamp 2%nat "not a date"
              ltac:(lia) eq_refl eq_refl) as (pt & Hpt & Hn & Ha).
  exists pt. split; [exact Hpt|]. split; [exact Hn|].
  rewrite Ha. reflexivity.
Defined.


(** ** The classifier as an order-preserving map *)

Section Monotone.

Ltac order_cases :=
  repeat match goal with
         | |- context [(?x ?= ?y)%Z] =>
             destruct (Z.compare_spec x y); simpl; try congruence; try lia
         | |- context [(?p ?= ?q)%positive] =>
             destruct (Pos.compare_spec p q); simpl; try congruence; try lia
         end.

(** [<=] on numbers is transitive. *)
Lemma le_trans (a b c : number) :
  Num.le a b = true → Num.le b c = true → Num.le a c = true.
Proof.
  unfold Num.le, SFleb.
  destruct a as [sa|sa| |sa ma ea], b as [sb|sb| |sb mb eb],
           c as [sc|sc| |sc mc ec]; simpl; try congruence;
    repeat match goal with s : bool |- _ => destruct s end;
    simpl; try congruence;
    rewrite ?Pos.compare_cont_spec; simpl;
    order_cases.
Qed.

(** X3. The classifier preserves order: of two comparable numbers the larger
    never lands in a milder tier.  NaN, which compares with nothing, is put
    in the most severe tier. *)
Theorem getAQICategory_monotone :
  (∀ x y : number,
     Num.le x y = true →
     (severity (getAQICategory x) ≤ severity (getAQICategory y))%nat)
  ∧ severity (getAQICategory Num.NaN) = 5%nat
  ∧ (severity <$> tiers) = [0; 1; 2; 3; 4; 5]%nat.
Proof.
  split; [|split; reflexivity].
  intros x y Hxy.
  assert (H : ∀ c, Num.le y c = true → Num.le x c = true)
    by (intros c; apply le_trans; exact Hxy).
  unfold getAQICategory.
  destruct (Num.le y (Num.lit 50)) eqn:E1.
  { rewrite (H _ E1). reflexivity. }
  destruct (Num.le y (Num.lit 100)) eqn:E2.
  { rewrite (H _ E2). destruct (Num.le x (Num.lit 50)); vm_compute; lia. }
  destruct (Num.le y (Num.lit 150)) eqn:E3.
  { rewrite (H _ E3).
    destruct (Num.le x (Num.lit 50)), (Num.le x (Num.lit 100));
      vm_compute; lia. }
  destruct (Num.le y (Num.lit 200)) eqn:E4.
  { rewrite (H _ E4).
    destruct (Num.le x (Num.lit 50)), (Num.le x (Num.lit 100)),
             (Num.le x (Num.lit 150)); vm_compute; lia. }
  destruct (Num.le y (Num.lit 300)) eqn:E5.
  { rewrite (H _ E5).
    destruct (Num.le x (Num.lit 50)), (Num.le x (Num.lit 100)),
             (Num.le x (Num.lit 150)), (Num.le x (Num.lit 200));
      vm_compute; lia. }
  destruct (Num.le x (Num.lit 50)), (Num.le x (Num.lit 100)),
           (Num.le x (Num.lit 150)), (Num.le x (Num.lit 200)),
           (Num.le x (Num.lit 300)); vm_compute; lia.
Qed.

End Monotone.

Lemma getAQICategory_monotone_witness :
  (severity (getAQICategory (Num.lit 120))
   ≤ severity (getAQICategory (Num.lit 250)))%nat.
Proof.
  destruct getAQICategory_monotone as [H _].
  apply H. vm_compute. reflexivity.
Defined.

(** ** The forecast fallback under the forecast shaper *)

Section FallbackCharted.
Variable host : Host.

Lemma HourFromTime_shift (x i : Z) :
  DateModel.HourFromTime (x + i * DateModel.msPerHour)
  = (DateModel.HourFromTime x + i) `mod` 24.
Proof.
  unfold DateModel.HourFromTime, DateModel.msPerHour.
  rewrite Z.div_add by lia. by rewrite Zplus_mod_idemp_l.
Qed.

(** X16. Charting the forecast fallback labels point [i] with the local hour of
    the clock reading of entry [i], moved on by [i] hours and wrapped at 24:
    with a clock that stands still during the render the labels count up
    hour by hour from the current local hour.  This holds in a zone of
    constant offset, for a host that reads back the timestamps it prints. *)
Theorem fallback_forecast_hour_labels (off : Z) (w : World) :
  FixedOffset host off →
  Z.abs off ≤ DateModel.msPerDay →
  ClockInRange w 24 →
  (∀ i, (i < 24)%nat →
     Date_parse host (isoFormat host (fallbackInstant w i))
     = Some (fallbackInstant w i)) →
  ∃ fc w',
    fallbackAqiForecastData host w = inr (fc, w')
    ∧ ∀ i, (i < 24)%nat →
        ∃ pt, formatAqiForecastData host (Some fc) !! i = Some pt
          ∧ name pt
            = NameNumber
                (Num.lit ((DateModel.HourFromTime
                             (clock w (clockReads w + i) + off)
                           + Z.of_nat i) `mod` 24))
          ∧ is_Some (aqi pt).
Proof.
  intros Hf Hoff Hc Hrt.
  pose proof (fixed_is_bounded host off Hf Hoff) as Hb.
  eexists _, _. split; [by apply fallbackAqiForecastData_run|].
  intros i Hi.
  pose proof (stampsFrom_lookup_fixed host off w 24 i Hf Hi) as Ht.
  eexists. split.
  { apply (formatAqiForecastData_lookup host
             (mkAqiForecastHourly (stampsFrom host w (clockReads w) 24)
                (jittersFrom host w 75 20 (randomDraws w) 24) None None)
             i _ Hi Ht). }
  cbn [name aqi european_aqi]. split.
  - unfold DateModel.newDateOf. rewrite (Hrt i Hi). cbn [mbind option_bind].
    rewrite TimeClip_in_range; cycle 1.
    { specialize (Hc i Hi). unfold fallbackInstant.
      unfold DateModel.maxTime, DateModel.msPerDay, DateModel.msPerHour in *.
      lia. }
    cbn [DateModel.getHours mbind option_bind numOfInt from_option].
    unfold DateModel.LocalTime. rewrite Hf. unfold fallbackInstant.
    do 2 f_equal.
    replace (clock w (clockReads w + i) + Z.of_nat i * DateModel.msPerHour + off)
      with (clock w (clockReads w + i) + off + Z.of_nat i * DateModel.msPerHour)
      by lia.
    apply HourFromTime_shift.
  - apply lookup_lt_is_Some_2. by rewrite jittersFrom_length.
Qed.

End FallbackCharted.

(** At 03:04 UTC on a host seven hours ahead the labels start at 10, reach
    23 at entry 13 and wrap to 0 at entry 14. *)
Lemma fallback_forecast_hour_labels_witness :
  ∃ fc w',
    fallbackAqiForecastData ExampleHost.hanoi (ExampleHost.frozen Scenario.t0)
    = inr (fc, w')
    ∧ name <$> formatAqiForecastData ExampleHost.hanoi (Some fc) !! 0%nat
      = Some (NameNumber (Num.lit 10))
    ∧ name <$> formatAqiForecastData ExampleHost.hanoi (Some fc) !! 14%nat
      = Some (NameNumber (Num.lit 0)).
Proof.
  destruct (fallback_forecast_hour_labels ExampleHost.hanoi
              (7 * DateModel.msPerHour) (ExampleHost.frozen Scenario.t0))
    as (fc & w' & Hrun & Hpts).
  - intros t b. reflexivity.
  - vm_compute. discriminate.
  - intros j Hj. unfold ExampleHost.frozen, Scenario.t0. simpl.
    unfold DateModel.maxTime, DateModel.msPerDay. lia.
  - intros i Hi.
    do 24 (destruct i as [|i]; [vm_compute; reflexivity|]). lia.
  - exists fc, w'. split; [exact Hrun|]. split.
    + destruct (Hpts 0%nat ltac:(lia)) as (pt & Hpt & Hn & _).
      rewrite Hpt. cbn [fmap option_fmap option_map]. rewrite Hn.
      vm_compute. reflexivity.
    + destruct (Hpts 14%nat ltac:(lia)) as (pt & Hpt & Hn & _).
      rewrite Hpt. cbn [fmap option_fmap option_map]. rewrite Hn.
      vm_compute. reflexivity.
Defined.
